(** * Displacement Wick Strategy: the evaluation pipeline of
      [displacement_wick_optimizer.py]

    A shallow embedding of [DisplacementWickStrategy] (indicators, signals,
    stop/target levels, the bar-by-bar backtest and its metrics) and of the
    parameter construction of [objective].

    Numbers.  A Python [float] is an IEEE 754 binary64 value: it is modelled
    by Rocq's primitive [float], whose operations are the same binary64
    operations, so that [np.nan], [float('inf')], comparisons that are false
    on NaN and rounding all behave as in the source.  A Python [int] is [Z].

    Tables.  A [DataFrame] is the list of its rows, in index order; the index
    label of a row is its [time].  A column-wise, element-wise pandas
    expression is a [map] over the rows; the three pandas operations that
    look at more than one row ([rolling(n).std()], [rolling(n).mean()],
    [ewm(span, adjust=False).mean()]) and [shift(1)] are whole-column
    functions, written from their pandas definitions as direct window
    formulas (pandas' incremental summation may differ from them in the last
    bits of a result).  The loader removes the rows with a missing price
    ([dropna]); the functions below are total all the same, and on a NaN
    price the windowed columns simply propagate it. *)

From Stdlib Require Import ZArith List Bool String Lia Floats.
Import ListNotations.

Local Open Scope string_scope.
Local Open Scope Z_scope.

(** ** Numbers *)

Module Num.

(** Conversion of a Python [int] to a [float] (exact below 2^53). *)
Definition of_Z (z : Z) : float :=
  match z with
  | Z0 => PrimFloat.zero
  | Zpos _ => PrimFloat.of_uint63 (Uint63.of_Z z)
  | Zneg q => PrimFloat.opp (PrimFloat.of_uint63 (Uint63.of_Z (Zpos q)))
  end.

Definition of_nat (n : nat) : float := of_Z (Z.of_nat n).

(** [a > b] and [a >= b] on floats: false as soon as one side is NaN. *)
Definition gtb (a b : float) : bool := PrimFloat.ltb b a.
Definition geb (a b : float) : bool := PrimFloat.leb b a.

(** [pd.isna] on a float cell. *)
Definition isna (x : float) : bool := PrimFloat.is_nan x.

(** Row-wise [max(axis=1)] / [min(axis=1)] of two cells; pandas skips NaN
    cells ([skipna=True]) and yields NaN only when every cell is NaN. *)
Definition nanmax (a b : float) : float :=
  if isna a then b else if isna b then a else if PrimFloat.ltb a b then b else a.

Definition nanmin (a b : float) : float :=
  if isna a then b else if isna b then a else if PrimFloat.ltb b a then b else a.

(** [Series.sum()]: NaN cells are skipped, the empty sum is 0. *)
Definition sum (l : list float) : float :=
  fold_left (fun acc x => if isna x then acc else PrimFloat.add acc x) l PrimFloat.zero.

(** Number of non-NaN cells. *)
Definition count (l : list float) : nat :=
  List.length (filter (fun x => negb (isna x)) l).

(** [Series.mean()]: mean of the non-NaN cells, NaN when there is none. *)
Definition mean (l : list float) : float :=
  PrimFloat.div (sum l) (of_nat (count l)).

(** [Series.std()] (sample standard deviation, [ddof=1]): NaN with fewer
    than two non-NaN cells. *)
Definition std (l : list float) : float :=
  let xs := filter (fun x => negb (isna x)) l in
  let n := List.length xs in
  if (n <=? 1)%nat then PrimFloat.nan
  else
    let m := PrimFloat.div (sum xs) (of_nat n) in
    let sq := map (fun x => PrimFloat.mul (PrimFloat.sub x m) (PrimFloat.sub x m)) xs in
    PrimFloat.sqrt (PrimFloat.div (sum sq) (of_nat (n - 1))).

(** [Series.max()]: NaN cells skipped, NaN on an empty series. *)
Definition max (l : list float) : float :=
  fold_left nanmax l PrimFloat.nan.

(** [Series.cumsum()]: running sum; a NaN cell stays NaN and is skipped by
    the running total. *)
Fixpoint cumsum_from (acc : float) (l : list float) : list float :=
  match l with
  | [] => []
  | x :: t =>
      if isna x then PrimFloat.nan :: cumsum_from acc t
      else let acc' := PrimFloat.add acc x in acc' :: cumsum_from acc' t
  end.

Definition cumsum (l : list float) : list float := cumsum_from PrimFloat.zero l.

(** [Series.cummax()]: running maximum, NaN cells skipped likewise. *)
Fixpoint cummax_from (acc : float) (l : list float) : list float :=
  match l with
  | [] => []
  | x :: t =>
      if isna x then PrimFloat.nan :: cummax_from acc t
      else let acc' := nanmax acc x in acc' :: cummax_from acc' t
  end.

Definition cummax (l : list float) : list float := cummax_from PrimFloat.nan l.

End Num.

(** ** Whole-column pandas operations *)

Module Column.

(** [s.shift(1)]: every cell moves one row down, the first becomes NaN.
    [prev] is the cell of the row above. *)
Fixpoint shift_from (prev : float) (s : list float) : list float :=
  match s with
  | [] => []
  | x :: t => prev :: shift_from x t
  end.

Definition shift1 (s : list float) : list float := shift_from PrimFloat.nan s.

(** [s.rolling(n).agg()]: at each row, [agg] of the window made of that
    row and the [n-1] rows before it, oldest first; NaN while fewer than
    [n] rows have been seen ([min_periods] defaults to the window), or
    when the window holds a NaN.  [seen] is the rows already passed,
    newest first. *)
Fixpoint rolling_from (agg : list float -> float) (n : nat)
         (seen : list float) (s : list float) : list float :=
  match s with
  | [] => []
  | x :: t =>
      let seen' := x :: seen in
      let w := rev (firstn n seen') in
      (if ((n <=? List.length seen')%nat && forallb (fun y => negb (Num.isna y)) w)%bool
       then agg w else PrimFloat.nan)
        :: rolling_from agg n seen' t
  end.

Definition rolling (agg : list float -> float) (n : nat) (s : list float) : list float :=
  rolling_from agg n [] s.

Definition rolling_std (n : nat) : list float -> list float := rolling Num.std n.
Definition rolling_mean (n : nat) : list float -> list float := rolling Num.mean n.

(** [s.ewm(span=span, adjust=False).mean()]: with [alpha = 2/(span+1)],
    [y0 = x0] and [y_t = (1-alpha)*y_(t-1) + alpha*x_t]. *)
Fixpoint ewm_from (alpha : float) (prev : float) (s : list float) : list float :=
  match s with
  | [] => []
  | x :: t =>
      let y := PrimFloat.add (PrimFloat.mul (PrimFloat.sub PrimFloat.one alpha) prev)
                             (PrimFloat.mul alpha x) in
      y :: ewm_from alpha y t
  end.

Definition ewm_mean (span : Z) (s : list float) : list float :=
  let alpha := PrimFloat.div PrimFloat.two (Num.of_Z (span + 1)) in
  match s with
  | [] => []
  | x :: t => x :: ewm_from alpha x t
  end.

End Column.

(** ** Data model *)

(** One row of the input OHLCV frame; [time] is its index label. *)
Record Bar := mkBar {
  time : Z;
  open : float;
  high : float;
  low : float;
  close : float;
  volume : float }.

(** The [params] dictionary. *)
Record Params := mkParams {
  displacement_length : Z;
  min_displacement_strength : Z;
  max_displacement_strength : Z;
  min_wick_pct : float;
  min_wick_body_ratio : float;
  trend_ema_length : Z;
  entry_method : string;
  target_method : string;
  stop_method : string;
  atr_stop_mult : float;
  wick_extreme_mult : float;
  fixed_stop_ticks : Z;
  target_rr : float;
  use_max_risk_filter : bool;
  max_risk_ticks : Z;
  trade_direction : string;
  zone_extend_bars : Z;
  tick_size : float;
  tick_value : float }.

Definition default_params : Params :=
  {| displacement_length := 100;
     min_displacement_strength := 1;
     max_displacement_strength := 4;
     min_wick_pct := 15.0%float;
     min_wick_body_ratio := 0.25%float;
     trend_ema_length := 50;
     entry_method := "zone_touch";
     target_method := "fixed_rr";
     stop_method := "atr";
     atr_stop_mult := 1.5%float;
     wick_extreme_mult := 1.0%float;
     fixed_stop_ticks := 10;
     target_rr := 2.0%float;
     use_max_risk_filter := true;
     max_risk_ticks := 60;
     trade_direction := "auto";
     zone_extend_bars := 50;
     tick_size := 0.25%float;
     tick_value := 0.50%float |}.

(** A row of the frame after [calculate_indicators]: the bar and the
    columns the method adds. *)
Record IndicatorRow := mkIndicatorRow {
  bar : Bar;
  body : float;
  range : float;
  upper_wick : float;
  lower_wick : float;
  body_top : float;
  body_bottom : float;
  upper_wick_pct : float;
  lower_wick_pct : float;
  upper_wick_body_ratio : float;
  lower_wick_body_ratio : float;
  body_std : float;
  displacement_strength : Z;
  ema : float;
  is_uptrend : bool;
  is_downtrend : bool;
  atr : float;
  is_bullish : bool;
  is_bearish : bool;
  has_upper_wick : bool;
  has_lower_wick : bool;
  is_valid_displacement : bool }.

(** A row of the frame after [generate_signals] and
    [calculate_stops_targets]. *)
Record Row := mkRow {
  ind : IndicatorRow;
  short_signal : bool;
  long_signal : bool;
  stop_price : float;
  target_price : float;
  risk : float }.

Inductive Direction := long | short.
Inductive ExitReason := stop_exit | target_exit.

(** The [position] dictionary of [backtest]. *)
Module Position.
Record t := mk {
  direction : Direction;
  entry : float;
  entry_time : Z;
  stop : float;
  target : float;
  risk : float }.
End Position.

(** One element of the [trades] list of [backtest]. *)
Module Trade.
Record t := mk {
  entry_time : Z;
  exit_time : Z;
  direction : Direction;
  entry : float;
  exit : float;
  stop : float;
  target : float;
  pnl_points : float;
  pnl_ticks : float;
  pnl_dollars : float;
  exit_reason : ExitReason;
  risk : float;
  r_multiple : float }.
End Trade.

(** ** Indicator Calculator *)

Fixpoint map4 {A B C D E : Type} (f : A -> B -> C -> D -> E)
         (la : list A) (lb : list B) (lc : list C) (ld : list D) : list E :=
  match la, lb, lc, ld with
  | a :: la', b :: lb', c :: lc', d :: ld' => f a b c d :: map4 f la' lb' lc' ld'
  | _, _, _, _ => []
  end.

(** [_calculate_atr]: rolling mean of the true range, whose row-wise
    maximum skips the NaN that [shift(1)] leaves in the first row. *)
Definition true_range (b : Bar) (prev_close : float) : float :=
  let tr1 := PrimFloat.sub (high b) (low b) in
  let tr2 := PrimFloat.abs (PrimFloat.sub (high b) prev_close) in
  let tr3 := PrimFloat.abs (PrimFloat.sub (low b) prev_close) in
  Num.nanmax (Num.nanmax tr1 tr2) tr3.

Definition _calculate_atr (df : list Bar) (period : nat) : list float :=
  let tr := map (fun bc => true_range (fst bc) (snd bc))
                (combine df (Column.shift1 (map close df))) in
  Column.rolling_mean period tr.

(** The nested [np.where] that grades the body against its rolling
    standard deviation. *)
Definition displacement_grade (body body_std : float) : Z :=
  if Num.gtb body (PrimFloat.mul body_std 4) then 4
  else if Num.gtb body (PrimFloat.mul body_std 3) then 3
  else if Num.gtb body (PrimFloat.mul body_std 2) then 2
  else if Num.gtb body body_std then 1
  else 0.

(** The element-wise columns of [calculate_indicators] for one row, given
    that row's cells of the three windowed columns. *)
Definition indicator_row (p : Params) (b : Bar) (body_std ema atr : float) : IndicatorRow :=
  let body := PrimFloat.abs (PrimFloat.sub (close b) (open b)) in
  let range := PrimFloat.sub (high b) (low b) in
  let body_top := Num.nanmax (open b) (close b) in
  let body_bottom := Num.nanmin (open b) (close b) in
  let upper_wick := PrimFloat.sub (high b) body_top in
  let lower_wick := PrimFloat.sub body_bottom (low b) in
  let upper_wick_pct :=
    if Num.gtb range 0 then PrimFloat.mul (PrimFloat.div upper_wick range) 100 else 0%float in
  let lower_wick_pct :=
    if Num.gtb range 0 then PrimFloat.mul (PrimFloat.div lower_wick range) 100 else 0%float in
  let upper_wick_body_ratio :=
    if Num.gtb body 0 then PrimFloat.div upper_wick body else 0%float in
  let lower_wick_body_ratio :=
    if Num.gtb body 0 then PrimFloat.div lower_wick body else 0%float in
  let displacement_strength := displacement_grade body body_std in
  {| bar := b;
     body := body;
     range := range;
     upper_wick := upper_wick;
     lower_wick := lower_wick;
     body_top := body_top;
     body_bottom := body_bottom;
     upper_wick_pct := upper_wick_pct;
     lower_wick_pct := lower_wick_pct;
     upper_wick_body_ratio := upper_wick_body_ratio;
     lower_wick_body_ratio := lower_wick_body_ratio;
     body_std := body_std;
     displacement_strength := displacement_strength;
     ema := ema;
     is_uptrend := Num.gtb (close b) ema;
     is_downtrend := PrimFloat.ltb (close b) ema;
     atr := atr;
     is_bullish := Num.gtb (close b) (open b);
     is_bearish := PrimFloat.ltb (close b) (open b);
     has_upper_wick :=
       Num.geb upper_wick_pct (min_wick_pct p)
       && Num.geb upper_wick_body_ratio (min_wick_body_ratio p);
     has_lower_wick :=
       Num.geb lower_wick_pct (min_wick_pct p)
       && Num.geb lower_wick_body_ratio (min_wick_body_ratio p);
     is_valid_displacement :=
       (min_displacement_strength p <=? displacement_strength)
       && (displacement_strength <=? max_displacement_strength p) |}.

(** pandas rejects a negative rolling window and an [ewm] span below 1 with
    a [ValueError]; [calculate_indicators] then raises. *)
Definition windows_ok (p : Params) : bool :=
  (0 <=? displacement_length p) && (1 <=? trend_ema_length p).

Definition calculate_indicators (p : Params) (df : list Bar) : option (list IndicatorRow) :=
  if windows_ok p then
    let body := map (fun b => PrimFloat.abs (PrimFloat.sub (close b) (open b))) df in
    let body_std := Column.rolling_std (Z.to_nat (displacement_length p)) body in
    let ema := Column.ewm_mean (trend_ema_length p) (map close df) in
    let atr := _calculate_atr df 14 in
    Some (map4 (indicator_row p) df body_std ema atr)
  else None.

(** ** Signal Generator *)

(** [generate_signals] on one row.  The three level columns exist only
    from [calculate_stops_targets] on, which starts by filling them with
    NaN; they are NaN here already. *)
Definition signal_row (p : Params) (r : IndicatorRow) : Row :=
  let short_base := is_valid_displacement r && is_bullish r && has_upper_wick r in
  let long_base := is_valid_displacement r && is_bearish r && has_lower_wick r in
  let sl :=
    if (trade_direction p =? "auto")%string then
      (short_base && is_downtrend r, long_base && is_uptrend r)
    else if (trade_direction p =? "long_only")%string then (false, long_base)
    else if (trade_direction p =? "short_only")%string then (short_base, false)
    else (short_base, long_base) in
  {| ind := r;
     short_signal := fst sl;
     long_signal := snd sl;
     stop_price := PrimFloat.nan;
     target_price := PrimFloat.nan;
     risk := PrimFloat.nan |}.

Definition generate_signals (p : Params) (df : list IndicatorRow) : list Row :=
  map (signal_row p) df.

(** ** Risk-Level Calculator *)

Definition set_levels (r : Row) (stop target rk : float) : Row :=
  {| ind := ind r;
     short_signal := short_signal r;
     long_signal := long_signal r;
     stop_price := stop;
     target_price := target;
     risk := rk |}.

Definition set_short_signal (r : Row) (b : bool) : Row :=
  {| ind := ind r;
     short_signal := b;
     long_signal := long_signal r;
     stop_price := stop_price r;
     target_price := target_price r;
     risk := risk r |}.

Definition set_long_signal (r : Row) (b : bool) : Row :=
  {| ind := ind r;
     short_signal := short_signal r;
     long_signal := b;
     stop_price := stop_price r;
     target_price := target_price r;
     risk := risk r |}.

(** The [stop_distance] series, at one row. *)
Definition stop_distance (p : Params) (r : Row) : float :=
  if (stop_method p =? "atr")%string then PrimFloat.mul (atr (ind r)) (atr_stop_mult p)
  else if (stop_method p =? "fixed_ticks")%string then
    PrimFloat.mul (Num.of_Z (fixed_stop_ticks p)) (tick_size p)
  else 0%float.

(** The assignments of the [# SHORT setups] block at a row of [short_mask]. *)
Definition short_levels (p : Params) (r : Row) : Row :=
  let b := bar (ind r) in
  let stop :=
    if (stop_method p =? "wick_extreme")%string then
      PrimFloat.add (high b) (PrimFloat.mul (upper_wick (ind r)) (wick_extreme_mult p))
    else PrimFloat.add (high b) (stop_distance p r) in
  let entry := high b in
  let rk := PrimFloat.sub stop entry in
  let target :=
    if (target_method p =? "fixed_rr")%string then PrimFloat.sub entry (PrimFloat.mul rk (target_rr p))
    else if (target_method p =? "wick_fill")%string then body_top (ind r)
    else if (target_method p =? "entire_candle")%string then low b
    else body_bottom (ind r) in
  set_levels r stop target rk.

(** The assignments of the [# LONG setups] block at a row of [long_mask]. *)
Definition long_levels (p : Params) (r : Row) : Row :=
  let b := bar (ind r) in
  let stop :=
    if (stop_method p =? "wick_extreme")%string then
      PrimFloat.sub (low b) (PrimFloat.mul (lower_wick (ind r)) (wick_extreme_mult p))
    else PrimFloat.sub (low b) (stop_distance p r) in
  let entry := low b in
  let rk := PrimFloat.sub entry stop in
  let target :=
    if (target_method p =? "fixed_rr")%string then PrimFloat.add entry (PrimFloat.mul rk (target_rr p))
    else if (target_method p =? "wick_fill")%string then body_bottom (ind r)
    else if (target_method p =? "entire_candle")%string then high b
    else body_top (ind r) in
  set_levels r stop target rk.

Definition init_levels (df : list Row) : list Row :=
  map (fun r => set_levels r PrimFloat.nan PrimFloat.nan PrimFloat.nan) df.

Definition short_setups (p : Params) (df : list Row) : list Row :=
  if existsb short_signal df
  then map (fun r => if short_signal r then short_levels p r else r) df
  else df.

Definition long_setups (p : Params) (df : list Row) : list Row :=
  if existsb long_signal df
  then map (fun r => if long_signal r then long_levels p r else r) df
  else df.

(** [# Apply max risk filter]: two masked assignments, each on the rows
    whose [risk] exceeds [max_risk]. *)
Definition max_risk (p : Params) : float :=
  PrimFloat.mul (Num.of_Z (max_risk_ticks p)) (tick_size p).

Definition max_risk_filter (p : Params) (df : list Row) : list Row :=
  if use_max_risk_filter p then
    let df1 := map (fun r => if Num.gtb (risk r) (max_risk p)
                             then set_short_signal r false else r) df in
    map (fun r => if Num.gtb (risk r) (max_risk p)
                  then set_long_signal r false else r) df1
  else df.

Definition calculate_stops_targets (p : Params) (df : list Row) : list Row :=
  max_risk_filter p (long_setups p (short_setups p (init_levels df))).

(** ** Trade Simulator *)

(** The loop state of [backtest]: the [position] variable ([None] when
    flat) and the [trades] list. *)
Record State := mkState {
  position : option Position.t;
  trades : list Trade.t }.

Definition initial_state : State := {| position := None; trades := [] |}.

(** The exit test of an open position against the next row: the pair
    ([exit_price], [exit_reason]), or [None] when both stay [None]. *)
Definition check_exit (pos : Position.t) (next_row : Row) : option (float * ExitReason) :=
  let nb := bar (ind next_row) in
  match Position.direction pos with
  | long =>
      if PrimFloat.leb (low nb) (Position.stop pos) then Some (Position.stop pos, stop_exit)
      else if Num.geb (high nb) (Position.target pos) then Some (Position.target pos, target_exit)
      else None
  | short =>
      if Num.geb (high nb) (Position.stop pos) then Some (Position.stop pos, stop_exit)
      else if PrimFloat.leb (low nb) (Position.target pos) then Some (Position.target pos, target_exit)
      else None
  end.

(** The dictionary appended to [trades] when a position exits. *)
Definition close_trade (p : Params) (pos : Position.t) (next_row : Row)
           (exit_price : float) (exit_reason : ExitReason) : Trade.t :=
  let pnl :=
    match Position.direction pos with
    | long => PrimFloat.sub exit_price (Position.entry pos)
    | short => PrimFloat.sub (Position.entry pos) exit_price
    end in
  let pnl_ticks := PrimFloat.div pnl (tick_size p) in
  let pnl_dollars := PrimFloat.mul pnl_ticks (tick_value p) in
  {| Trade.entry_time := Position.entry_time pos;
     Trade.exit_time := time (bar (ind next_row));
     Trade.direction := Position.direction pos;
     Trade.entry := Position.entry pos;
     Trade.exit := exit_price;
     Trade.stop := Position.stop pos;
     Trade.target := Position.target pos;
     Trade.pnl_points := pnl;
     Trade.pnl_ticks := pnl_ticks;
     Trade.pnl_dollars := pnl_dollars;
     Trade.exit_reason := exit_reason;
     Trade.risk := Position.risk pos;
     Trade.r_multiple :=
       if Num.gtb (Position.risk pos) 0 then PrimFloat.div pnl (Position.risk pos)
       else 0%float |}.

(** [# Check for exit if in position]. *)
Definition exit_phase (p : Params) (next_row : Row) (st : State) : State :=
  match position st with
  | None => st
  | Some pos =>
      match check_exit pos next_row with
      | Some (exit_price, exit_reason) =>
          {| position := None;
             trades := trades st ++ [close_trade p pos next_row exit_price exit_reason] |}
      | None => st
      end
  end.

(** The position a flat simulator opens from [row], filled at the open of
    [next_row]; [None] when [row] opens nothing. *)
Definition open_position (p : Params) (row next_row : Row) : option Position.t :=
  if short_signal row && negb (Num.isna (stop_price row)) then
    let entry_price := open (bar (ind next_row)) in
    let rk := risk row in
    Some {| Position.direction := short;
            Position.entry := entry_price;
            Position.entry_time := time (bar (ind next_row));
            Position.stop := PrimFloat.add entry_price rk;
            Position.target := PrimFloat.sub entry_price (PrimFloat.mul rk (target_rr p));
            Position.risk := rk |}
  else if long_signal row && negb (Num.isna (stop_price row)) then
    let entry_price := open (bar (ind next_row)) in
    let rk := risk row in
    Some {| Position.direction := long;
            Position.entry := entry_price;
            Position.entry_time := time (bar (ind next_row));
            Position.stop := PrimFloat.sub entry_price rk;
            Position.target := PrimFloat.add entry_price (PrimFloat.mul rk (target_rr p));
            Position.risk := rk |}
  else None.

(** [# Check for new entry (only if not in position)]. *)
Definition entry_phase (p : Params) (row next_row : Row) (st : State) : State :=
  match position st with
  | None => {| position := open_position p row next_row; trades := trades st |}
  | Some _ => st
  end.

(** One iteration of the [for i in range(len(df) - 1)] loop. *)
Definition step (p : Params) (df : list Row) (st : State) (i : nat) : State :=
  match nth_error df i, nth_error df (S i) with
  | Some row, Some next_row => entry_phase p row next_row (exit_phase p next_row st)
  | _, _ => st
  end.

(** The state after the first [k] iterations. *)
Definition backtest_steps (p : Params) (df : list Row) (k : nat) : State :=
  fold_left (step p df) (seq 0 k) initial_state.

Definition backtest_loop (p : Params) (df : list Row) : State :=
  backtest_steps p df (List.length df - 1).

(** ** Metrics Aggregator *)

(** The dictionary returned by [calculate_metrics]; the [trades] key is
    absent from the one returned for an empty trade list. *)
Record Metrics := mkMetrics {
  total_trades : Z;
  win_rate : float;
  profit_factor : float;
  total_pnl : float;
  avg_winner : float;
  avg_loser : float;
  max_drawdown : float;
  sharpe : float;
  avg_r : float;
  trades_df : option (list Trade.t) }.

Definition calculate_metrics (ts : list Trade.t) : Metrics :=
  match ts with
  | [] =>
      {| total_trades := 0; win_rate := 0; profit_factor := 0; total_pnl := 0;
         avg_winner := 0; avg_loser := 0; max_drawdown := 0; sharpe := 0;
         avg_r := 0; trades_df := None |}
  | _ :: _ =>
      let pnl := map Trade.pnl_dollars ts in
      let winners := filter (fun x => Num.gtb x 0) pnl in
      let losers := filter (fun x => PrimFloat.leb x 0) pnl in
      let gross_profit := if (0 <? List.length winners)%nat then Num.sum winners else 0%float in
      let gross_loss :=
        if (0 <? List.length losers)%nat then PrimFloat.abs (Num.sum losers) else 0%float in
      let cumulative := Num.cumsum pnl in
      let rolling_max := Num.cummax cumulative in
      let drawdown := map (fun mc => PrimFloat.sub (fst mc) (snd mc))
                          (combine rolling_max cumulative) in
      {| total_trades := Z.of_nat (List.length ts);
         win_rate :=
           PrimFloat.mul (PrimFloat.div (Num.of_nat (List.length winners))
                                        (Num.of_nat (List.length ts))) 100;
         profit_factor :=
           if Num.gtb gross_loss 0 then PrimFloat.div gross_profit gross_loss
           else PrimFloat.infinity;
         total_pnl := Num.sum pnl;
         avg_winner := if (0 <? List.length winners)%nat then Num.mean winners else 0%float;
         avg_loser := if (0 <? List.length losers)%nat then Num.mean losers else 0%float;
         max_drawdown := Num.max drawdown;
         sharpe :=
           if Num.gtb (Num.std pnl) 0 then PrimFloat.div (Num.mean pnl) (Num.std pnl)
           else 0%float;
         avg_r := Num.mean (map Trade.r_multiple ts);
         trades_df := Some ts |}
  end.

Definition backtest (p : Params) (df : list Row) : Metrics :=
  calculate_metrics (trades (backtest_loop p df)).

(** ** The strategy object and the full pipeline *)

Record Strategy := mkStrategy {
  df : list Bar;
  params : Params }.

(** [__init__]: the frame is copied and the parameters are stored as
    given, the defaults standing in for a missing dictionary. *)
Definition init (frame : list Bar) (ps : option Params) : Strategy :=
  {| df := frame;
     params := match ps with Some p => p | None => default_params end |}.

(** [run]: indicators, signals, levels, backtest; [None] when
    [calculate_indicators] raises. *)
Definition run (s : Strategy) : option Metrics :=
  match calculate_indicators (params s) (df s) with
  | Some rows =>
      Some (backtest (params s)
              (calculate_stops_targets (params s) (generate_signals (params s) rows)))
  | None => None
  end.

(** ** Parameter construction of [objective] *)

(** The values one trial suggests, one field per [trial.suggest_*] call. *)
Module Trial.
Record t := mk {
  displacement_length : Z;
  min_displacement_strength : Z;
  max_displacement_strength : Z;
  min_wick_pct : float;
  min_wick_body_ratio : float;
  trend_ema_length : Z;
  entry_method : string;
  target_method : string;
  stop_method : string;
  atr_stop_mult : float;
  wick_extreme_mult : float;
  fixed_stop_ticks : Z;
  target_rr : float;
  max_risk_ticks : Z;
  trade_direction : string;
  zone_extend_bars : Z }.
End Trial.

(** The [params] literal of [objective]. *)
Definition suggested_params (t : Trial.t) : Params :=
  {| displacement_length := Trial.displacement_length t;
     min_displacement_strength := Trial.min_displacement_strength t;
     max_displacement_strength := Trial.max_displacement_strength t;
     min_wick_pct := Trial.min_wick_pct t;
     min_wick_body_ratio := Trial.min_wick_body_ratio t;
     trend_ema_length := Trial.trend_ema_length t;
     entry_method := Trial.entry_method t;
     target_method := Trial.target_method t;
     stop_method := Trial.stop_method t;
     atr_stop_mult := Trial.atr_stop_mult t;
     wick_extreme_mult := Trial.wick_extreme_mult t;
     fixed_stop_ticks := Trial.fixed_stop_ticks t;
     target_rr := Trial.target_rr t;
     use_max_risk_filter := true;
     max_risk_ticks := Trial.max_risk_ticks t;
     trade_direction := Trial.trade_direction t;
     zone_extend_bars := Trial.zone_extend_bars t;
     tick_size := 0.25%float;
     tick_value := 0.50%float |}.

Definition set_max_displacement_strength (p : Params) (v : Z) : Params :=
  {| displacement_length := displacement_length p;
     min_displacement_strength := min_displacement_strength p;
     max_displacement_strength := v;
     min_wick_pct := min_wick_pct p;
     min_wick_body_ratio := min_wick_body_ratio p;
     trend_ema_length := trend_ema_length p;
     entry_method := entry_method p;
     target_method := target_method p;
     stop_method := stop_method p;
     atr_stop_mult := atr_stop_mult p;
     wick_extreme_mult := wick_extreme_mult p;
     fixed_stop_ticks := fixed_stop_ticks p;
     target_rr := target_rr p;
     use_max_risk_filter := use_max_risk_filter p;
     max_risk_ticks := max_risk_ticks p;
     trade_direction := trade_direction p;
     zone_extend_bars := zone_extend_bars p;
     tick_size := tick_size p;
     tick_value := tick_value p |}.

(** [# Ensure max >= min for displacement strength]. *)
Definition ensure_max_ge_min (p : Params) : Params :=
  if max_displacement_strength p <? min_displacement_strength p
  then set_max_displacement_strength p (min_displacement_strength p)
  else p.

(** The strategy object [objective] builds and runs for a trial. *)
Definition objective_strategy (t : Trial.t) (frame : list Bar) : Strategy :=
  init frame (Some (ensure_max_ge_min (suggested_params t))).

(** [objective]: the score of a trial; [None] when the run raises. *)
Definition objective (t : Trial.t) (frame : list Bar) : option float :=
  match run (objective_strategy t frame) with
  | Some results =>
      if total_trades results <? 20 then Some (-1000)%float
      else Some (PrimFloat.sub
                   (PrimFloat.add (profit_factor results)
                                  (PrimFloat.div (win_rate results) 100))
                   (PrimFloat.div (max_drawdown results) 1000))
  | None => None
  end.

(** [run_optimization] rebuilds the parameter set of the best trial:
    the defaults, updated with the trial's suggestions, then the same
    correction of the maximum strength. *)
Definition best_params (t : Trial.t) : Params :=
  let d := default_params in
  ensure_max_ge_min
    {| displacement_length := Trial.displacement_length t;
       min_displacement_strength := Trial.min_displacement_strength t;
       max_displacement_strength := Trial.max_displacement_strength t;
       min_wick_pct := Trial.min_wick_pct t;
       min_wick_body_ratio := Trial.min_wick_body_ratio t;
       trend_ema_length := Trial.trend_ema_length t;
       entry_method := Trial.entry_method t;
       target_method := Trial.target_method t;
       stop_method := Trial.stop_method t;
       atr_stop_mult := Trial.atr_stop_mult t;
       wick_extreme_mult := Trial.wick_extreme_mult t;
       fixed_stop_ticks := Trial.fixed_stop_ticks t;
       target_rr := Trial.target_rr t;
       use_max_risk_filter := use_max_risk_filter d;
       max_risk_ticks := Trial.max_risk_ticks t;
       trade_direction := Trial.trade_direction t;
       zone_extend_bars := Trial.zone_extend_bars t;
       tick_size := tick_size d;
       tick_value := tick_value d |}.

(** ** A sample frame *)

(** Seven five-minute bars: bar 2 is a bullish displacement candle with a
    significant upper wick, bar 4 a bearish one with a significant lower
    wick. *)
Module Sample.

Definition frame : list Bar :=
  [ mkBar 0    100    101    99    100.5 10;
    mkBar 300  100.5  101.5  100   101   10;
    mkBar 600  101    106    100.5 104   10;
    mkBar 900  104.5  105    103.5 104   10;
    mkBar 1200 104    104.5  102   102.5 10;
    mkBar 1500 102.5  103    102   102.75 10;
    mkBar 1800 102.75 103    101   101.25 10 ]%float.

(** Short windows, both directions, a fixed stop of [ticks] ticks, and the
    given target method and risk cap. *)
Definition with_stop (ticks cap : Z) (tm : string) : Params :=
  {| displacement_length := 3;
     min_displacement_strength := 1;
     max_displacement_strength := 4;
     min_wick_pct := 15.0%float;
     min_wick_body_ratio := 0.25%float;
     trend_ema_length := 2;
     entry_method := "zone_touch";
     target_method := tm;
     stop_method := "fixed_ticks";
     atr_stop_mult := 1.5%float;
     wick_extreme_mult := 1.0%float;
     fixed_stop_ticks := ticks;
     target_rr := 2.0%float;
     use_max_risk_filter := true;
     max_risk_ticks := cap;
     trade_direction := "both";
     zone_extend_bars := 50;
     tick_size := 0.25%float;
     tick_value := 0.50%float |}.

Definition params : Params := with_stop 4 60 "fixed_rr".

(** The annotated frame [backtest] scans: indicators, signals, levels. *)
Definition annotated (p : Params) : list Row :=
  match calculate_indicators p frame with
  | Some rows => calculate_stops_targets p (generate_signals p rows)
  | None => []
  end.

(** Row [i] of the annotated frame. *)
Definition row (p : Params) (i : nat) : Row :=
  nth i (annotated p) (signal_row p (indicator_row p (mkBar 0 0 0 0 0 0) 0 0 0)).

(** A long position whose stop and target both lie inside the range of
    the last bar (low 101, high 103). *)
Definition spanned_long : Position.t :=
  {| Position.direction := long;
     Position.entry := 102.5%float;
     Position.entry_time := 1500;
     Position.stop := 101.5%float;
     Position.target := 102.875%float;
     Position.risk := 1%float |}.

(** A trial whose suggested maximum strength lies below the minimum. *)
Definition crossed_trial : Trial.t :=
  {| Trial.displacement_length := 50;
     Trial.min_displacement_strength := 3;
     Trial.max_displacement_strength := 2;
     Trial.min_wick_pct := 15.0%float;
     Trial.min_wick_body_ratio := 0.25%float;
     Trial.trend_ema_length := 20;
     Trial.entry_method := "zone_touch";
     Trial.target_method := "fixed_rr";
     Trial.stop_method := "atr";
     Trial.atr_stop_mult := 1.5%float;
     Trial.wick_extreme_mult := 1.0%float;
     Trial.fixed_stop_ticks := 10;
     Trial.target_rr := 2.0%float;
     Trial.max_risk_ticks := 60;
     Trial.trade_direction := "auto";
     Trial.zone_extend_bars := 50 |}.

End Sample.

(** ** The Risk-Level Calculator, one row at a time

    What the successive masked assignments of [calculate_stops_targets] do
    to a single row; [calculate_stops_targets_map] below shows that the
    method is the [map] of their composition. *)

Definition init_row (r : Row) : Row :=
  set_levels r PrimFloat.nan PrimFloat.nan PrimFloat.nan.

Definition short_row (p : Params) (r : Row) : Row :=
  if short_signal r then short_levels p r else r.

Definition long_row (p : Params) (r : Row) : Row :=
  if long_signal r then long_levels p r else r.

(** The row as it stands before the max-risk filter. *)
Definition levels_row (p : Params) (r : Row) : Row :=
  long_row p (short_row p (init_row r)).

Definition filter_row (p : Params) (r : Row) : Row :=
  if use_max_risk_filter p then
    let r1 := if Num.gtb (risk r) (max_risk p) then set_short_signal r false else r in
    if Num.gtb (risk r1) (max_risk p) then set_long_signal r1 false else r1
  else r.

(** ** Where positions and trades come from *)

(** [pos] is the position the simulator opens from signal row [i],
    filled on row [i+1]. *)
Definition opened_at (p : Params) (df : list Row) (i : nat) (pos : Position.t) : Prop :=
  exists row next_row,
    nth_error df i = Some row /\ nth_error df (S i) = Some next_row
    /\ open_position p row next_row = Some pos.

(** [t] is the trade emitted when the position opened from signal row
    [i] exits on row [j+1], in a later iteration [j]. *)
Definition closed_at (p : Params) (df : list Row) (i j : nat) (t : Trade.t) : Prop :=
  exists pos next_row exit_price exit_reason,
    (i < j)%nat /\ opened_at p df i pos
    /\ nth_error df (S j) = Some next_row
    /\ check_exit pos next_row = Some (exit_price, exit_reason)
    /\ t = close_trade p pos next_row exit_price exit_reason.

(** Index labels strictly increase down the frame. *)
Definition increasing_times (df : list Row) : Prop :=
  forall i j ri rj, (i < j)%nat ->
    nth_error df i = Some ri -> nth_error df j = Some rj ->
    time (bar (ind ri)) < time (bar (ind rj)).

(** The levels of a position of direction [d] opened from [row] and
    filled at the open of [next_row]: the stop sits one risk distance from
    the fill and the target [target_rr] risk distances on the other
    side, the risk being the one of the signal row. *)
Definition levels_from_fill (p : Params) (row next_row : Row) (d : Direction)
           (entry stop target rk : float) : Prop :=
  let f := open (bar (ind next_row)) in
  let r := risk row in
  entry = f /\ rk = r
  /\ match d with
     | short => short_signal row = true
                /\ stop = PrimFloat.add f r
                /\ target = PrimFloat.sub f (PrimFloat.mul r (target_rr p))
     | long => long_signal row = true
               /\ stop = PrimFloat.sub f r
               /\ target = PrimFloat.add f (PrimFloat.mul r (target_rr p))
     end.

(** A test for [increasing_times]. *)
Fixpoint increasing_timesb (df : list Row) : bool :=
  match df with
  | [] => true
  | r :: t =>
      forallb (fun r' => time (bar (ind r)) <? time (bar (ind r'))) t
      && increasing_timesb t
  end.

(** Two trades do not overlap when the earlier one is over by the time
    the later one is entered. *)
Definition precedes (a b : Trade.t) : Prop := Trade.exit_time a <= Trade.entry_time b.

(** ** Parameters the pipeline does not read *)

(** [p] with its [entry_method], [target_method] and [zone_extend_bars]
    replaced. *)
Definition with_unread (p : Params) (em tm : string) (zb : Z) : Params :=
  {| displacement_length := displacement_length p;
     min_displacement_strength := min_displacement_strength p;
     max_displacement_strength := max_displacement_strength p;
     min_wick_pct := min_wick_pct p;
     min_wick_body_ratio := min_wick_body_ratio p;
     trend_ema_length := trend_ema_length p;
     entry_method := em;
     target_method := tm;
     stop_method := stop_method p;
     atr_stop_mult := atr_stop_mult p;
     wick_extreme_mult := wick_extreme_mult p;
     fixed_stop_ticks := fixed_stop_ticks p;
     target_rr := target_rr p;
     use_max_risk_filter := use_max_risk_filter p;
     max_risk_ticks := max_risk_ticks p;
     trade_direction := trade_direction p;
     zone_extend_bars := zb;
     tick_size := tick_size p;
     tick_value := tick_value p |}.

(** A row with its [target_price] cell blanked. *)
Definition blank_target (r : Row) : Row :=
  {| ind := ind r;
     short_signal := short_signal r;
     long_signal := long_signal r;
     stop_price := stop_price r;
     target_price := PrimFloat.nan;
     risk := risk r |}.

(** ** More sample parameter sets *)

Module Demo.

(** The sample parameters with another direction mode and stop method. *)
Definition with_mode (direction stop : string) : Params :=
  {| displacement_length := 3;
     min_displacement_strength := 1;
     max_displacement_strength := 4;
     min_wick_pct := 15.0%float;
     min_wick_body_ratio := 0.25%float;
     trend_ema_length := 2;
     entry_method := "zone_touch";
     target_method := "fixed_rr";
     stop_method := stop;
     atr_stop_mult := 1.5%float;
     wick_extreme_mult := 1.0%float;
     fixed_stop_ticks := 4;
     target_rr := 2.0%float;
     use_max_risk_filter := true;
     max_risk_ticks := 60;
     trade_direction := direction;
     zone_extend_bars := 50;
     tick_size := 0.25%float;
     tick_value := 0.50%float |}.


(** The indicator rows of the sample frame. *)
Definition indicators (p : Params) : list IndicatorRow :=
  match calculate_indicators p Sample.frame with
  | Some rows => rows
  | None => []
  end.

End Demo.

(** * Properties *)

(** ** Facts about binary64 comparison *)

Lemma SFcompare_Lt_asym (a b : spec_float) :
  SFcompare a b = Some Lt -> SFcompare b a = Some Gt.
Proof.
  destruct a as [sa| sa | | sa ma ea], b as [sb | sb | | sb mb eb]; simpl;
    try discriminate;
    try (destruct sa; try destruct sb; simpl; intros H; inversion H; reflexivity).
  destruct sa, sb; try discriminate; try reflexivity;
    rewrite (Z.compare_antisym ea eb);
    destruct (ea ?= eb)%Z eqn:E; simpl; try discriminate; try reflexivity;
    rewrite !Pos.compare_cont_spec; simpl;
    rewrite (Pos.compare_antisym ma mb);
    destruct (ma ?= mb)%positive; simpl; try discriminate; reflexivity.
Qed.

Lemma ltb_asym (a b : float) :
  PrimFloat.ltb a b = true -> PrimFloat.ltb b a = false.
Proof.
  rewrite !ltb_spec. unfold SFltb. intros H.
  destruct (SFcompare (Prim2SF a) (Prim2SF b)) as [[| |]|] eqn:E; try discriminate.
  now rewrite (SFcompare_Lt_asym _ _ E).
Qed.

(** Two floats that [=?] tells apart are different. *)
Lemma float_neq (a b : float) : PrimFloat.eqb a b = false -> is_nan a = false -> a <> b.
Proof.
  intros H Hn ->. unfold is_nan in Hn. rewrite H in Hn. discriminate.
Qed.

(** ** The Risk-Level Calculator, row by row *)

Section RowWise.

Variable p : Params.

Lemma masked_map_id {A : Type} (mask : A -> bool) (f : A -> A) (l : list A) :
  existsb mask l = false -> map (fun r => if mask r then f r else r) l = l.
Proof.
  induction l as [|a l IH]; simpl; [reflexivity|].
  intros H. apply orb_false_iff in H as [Ha Hl].
  rewrite Ha, IH by assumption. reflexivity.
Qed.

Lemma short_setups_map (rows : list Row) :
  short_setups p rows = map (short_row p) rows.
Proof.
  unfold short_setups, short_row.
  destruct (existsb short_signal rows) eqn:E; [reflexivity|].
  symmetry. now apply masked_map_id.
Qed.

Lemma long_setups_map (rows : list Row) :
  long_setups p rows = map (long_row p) rows.
Proof.
  unfold long_setups, long_row.
  destruct (existsb long_signal rows) eqn:E; [reflexivity|].
  symmetry. now apply masked_map_id.
Qed.

Lemma max_risk_filter_map (rows : list Row) :
  max_risk_filter p rows = map (filter_row p) rows.
Proof.
  unfold max_risk_filter, filter_row.
  destruct (use_max_risk_filter p).
  - rewrite map_map. reflexivity.
  - now rewrite map_id.
Qed.

Lemma unfiltered_map (rows : list Row) :
  long_setups p (short_setups p (init_levels rows)) = map (levels_row p) rows.
Proof.
  rewrite long_setups_map, short_setups_map. unfold init_levels.
  rewrite !map_map. reflexivity.
Qed.

Lemma calculate_stops_targets_map (rows : list Row) :
  calculate_stops_targets p rows = map (fun r => filter_row p (levels_row p r)) rows.
Proof.
  unfold calculate_stops_targets.
  rewrite max_risk_filter_map, unfiltered_map, map_map. reflexivity.
Qed.

(** The filter touches the two signal columns only, and only clears. *)
Lemma filter_row_columns (r : Row) :
  ind (filter_row p r) = ind r /\ stop_price (filter_row p r) = stop_price r
  /\ target_price (filter_row p r) = target_price r /\ risk (filter_row p r) = risk r
  /\ (short_signal (filter_row p r) = true -> short_signal r = true)
  /\ (long_signal (filter_row p r) = true -> long_signal r = true).
Proof.
  unfold filter_row.
  destruct (use_max_risk_filter p); [|tauto].
  destruct (Num.gtb (risk r) (max_risk p)) eqn:E; simpl; rewrite ?E; simpl;
    repeat split; auto; discriminate.
Qed.

Lemma filter_row_clears (r : Row) :
  use_max_risk_filter p = true -> Num.gtb (risk r) (max_risk p) = true ->
  filter_row p r = set_long_signal (set_short_signal r false) false.
Proof.
  unfold filter_row. intros -> H. rewrite H. simpl. rewrite H. reflexivity.
Qed.

End RowWise.

(** Rows coming out of the first two pipeline stages. *)
Lemma In_map4 {A B C D E : Type} (f : A -> B -> C -> D -> E) la lb lc ld x :
  In x (map4 f la lb lc ld) -> exists a b c d, x = f a b c d /\ In a la.
Proof.
  revert lb lc ld. induction la as [|a la IH]; intros [|b lb] [|c lc] [|d ld]; simpl;
    try contradiction.
  intros [<- | H].
  - exists a, b, c, d. auto.
  - destruct (IH _ _ _ H) as (a' & b' & c' & d' & -> & Hin).
    exists a', b', c', d'. auto.
Qed.

Lemma In_calculate_indicators p frame rows r :
  calculate_indicators p frame = Some rows -> In r rows ->
  exists b s e a, r = indicator_row p b s e a /\ In b frame.
Proof.
  unfold calculate_indicators. destruct (windows_ok p); [|discriminate].
  intros [= <-] H. now apply In_map4 in H.
Qed.

(** A candle is not both bullish and bearish, so a row never carries both
    signals. *)
Lemma signals_exclusive p frame rows r :
  calculate_indicators p frame = Some rows -> In r (generate_signals p rows) ->
  short_signal r = true -> long_signal r = false.
Proof.
  intros Hc Hin. unfold generate_signals in Hin. apply in_map_iff in Hin as (ir & <- & Hir).
  destruct (In_calculate_indicators _ _ _ _ Hc Hir) as (b & s & e & a & -> & _).
  unfold signal_row.
  assert (X : is_bullish (indicator_row p b s e a) = true ->
              is_bearish (indicator_row p b s e a) = false).
  { simpl. unfold Num.gtb. intros H. apply ltb_asym in H. exact H. }
  destruct (trade_direction p =? "auto")%string;
    [|destruct (trade_direction p =? "long_only")%string;
      [|destruct (trade_direction p =? "short_only")%string]];
    cbn [fst snd short_signal long_signal]; try discriminate; try reflexivity;
    intros H; repeat (apply andb_true_iff in H as [H ?]);
    rewrite X by assumption; rewrite ?andb_false_r; reflexivity.
Qed.

(** The signal columns and the indicator columns pass through the two
    setup blocks unchanged. *)
Lemma levels_row_keeps (p : Params) (r : Row) :
  ind (levels_row p r) = ind r
  /\ short_signal (levels_row p r) = short_signal r
  /\ long_signal (levels_row p r) = long_signal r.
Proof.
  unfold levels_row, long_row, short_row, init_row.
  destruct (short_signal r) eqn:Es, (long_signal r) eqn:El; simpl;
    rewrite ?Es, ?El; simpl; rewrite ?El; simpl; auto.
Qed.

Lemma levels_row_short (p : Params) (r : Row) :
  short_signal r = true -> long_signal r = false ->
  levels_row p r = short_levels p (init_row r).
Proof.
  unfold levels_row, long_row, short_row, init_row. simpl.
  intros -> H. simpl. rewrite H. reflexivity.
Qed.

Lemma levels_row_long (p : Params) (r : Row) :
  long_signal r = true ->
  levels_row p r = long_levels p (short_row p (init_row r)).
Proof.
  unfold levels_row, long_row. intros H.
  assert (X : long_signal (short_row p (init_row r)) = true).
  { unfold short_row, init_row. simpl. destruct (short_signal r); simpl; exact H. }
  now rewrite X.
Qed.

Lemma short_row_ind (p : Params) (r : Row) : ind (short_row p r) = ind r.
Proof. unfold short_row. destruct (short_signal r); reflexivity. Qed.

(** ** Targets of the fill methods (C1) *)

(** C1, as the specification words it, on the sample frame: under
    [wick_fill] the short signal of bar 2 would have its target at the body
    bottom.  The calculator puts it at the body top, so the claim as
    worded fails there. *)
Lemma wick_fill_short_target_is_not_body_bottom :
  let p := Sample.with_stop 4 60 "wick_fill" in
  let r := Sample.row p 2%nat in
  target_method p = "wick_fill"
  /\ In r (Sample.annotated p)
  /\ short_signal r = true
  /\ target_price r <> body_bottom (ind r).
Proof.
  split; [reflexivity|]. split; [|split].
  - vm_compute. tauto.
  - vm_compute. reflexivity.
  - apply float_neq; vm_compute; reflexivity.
Qed.

(** C1 (amended): on the frame the pipeline annotates, a row that carries
    a short signal has its risk measured from the bar's high and its
    target at the body top under [wick_fill] and at the body bottom under
    [body_fill]; a row that carries a long signal has its risk measured
    from the bar's low and its target at the body bottom under
    [wick_fill] and at the body top under [body_fill]. *)
Theorem fill_targets (p : Params) (frame : list Bar) (rows : list IndicatorRow) (r : Row) :
  calculate_indicators p frame = Some rows ->
  In r (calculate_stops_targets p (generate_signals p rows)) ->
  (short_signal r = true ->
     risk r = PrimFloat.sub (stop_price r) (high (bar (ind r)))
     /\ (target_method p = "wick_fill" -> target_price r = body_top (ind r))
     /\ (target_method p = "body_fill" -> target_price r = body_bottom (ind r)))
  /\ (long_signal r = true ->
     risk r = PrimFloat.sub (low (bar (ind r))) (stop_price r)
     /\ (target_method p = "wick_fill" -> target_price r = body_bottom (ind r))
     /\ (target_method p = "body_fill" -> target_price r = body_top (ind r))).
Proof.
  intros Hc Hin. rewrite calculate_stops_targets_map in Hin.
  apply in_map_iff in Hin as (r0 & <- & Hr0).
  destruct (filter_row_columns p (levels_row p r0)) as (Hi & Hs & Ht & Hr & Hss & Hls).
  destruct (levels_row_keeps p r0) as (Ki & Ks & Kl).
  rewrite Hi, Hs, Ht, Hr. clear Hi Hs Ht Hr.
  split; intros H.
  - apply Hss in H. rewrite Ks in H.
    rewrite (levels_row_short p r0 H (signals_exclusive _ _ _ _ Hc Hr0 H)).
    unfold short_levels. simpl.
    repeat split; intros Hm; rewrite Hm; reflexivity.
  - apply Hls in H. rewrite Kl in H.
    rewrite (levels_row_long p r0 H).
    unfold long_levels. simpl. rewrite !short_row_ind. simpl.
    repeat split; intros Hm; rewrite Hm; reflexivity.
Qed.

Lemma fill_targets_witness :
  let r := Sample.row (Sample.with_stop 4 60 "wick_fill") 2 in
  target_price r = body_top (ind r).
Proof.
  refine (proj1 (proj2 (proj1
    (fill_targets (Sample.with_stop 4 60 "wick_fill") Sample.frame
       (match calculate_indicators (Sample.with_stop 4 60 "wick_fill") Sample.frame with
        | Some rows => rows | None => [] end) _ _ _) _)) _).
  - vm_compute. reflexivity.
  - vm_compute. tauto.
  - vm_compute. reflexivity.
  - reflexivity.
Defined.

(** ** The exit test (C3) *)

(** C3: with a position open, the next bar gives no exit, a stop exit or a
    target exit, and the stop is tested first.  A long position whose stop
    is reached by the bar's low exits at the stop with reason [stop], and so
    does a short position whose stop is reached by the bar's high, whatever
    the bar does to the target; a target exit happens at the target price
    and only on a bar that leaves the stop untouched.  The simulator then
    either keeps its state or drops the position and appends the trade. *)
Theorem stop_checked_before_target (p : Params) (st : State) (pos : Position.t)
        (next_row : Row) :
  position st = Some pos ->
  let nb := bar (ind next_row) in
  (Position.direction pos = long -> PrimFloat.leb (low nb) (Position.stop pos) = true ->
     check_exit pos next_row = Some (Position.stop pos, stop_exit))
  /\ (Position.direction pos = short -> Num.geb (high nb) (Position.stop pos) = true ->
     check_exit pos next_row = Some (Position.stop pos, stop_exit))
  /\ (forall px, check_exit pos next_row = Some (px, target_exit) ->
     px = Position.target pos
     /\ match Position.direction pos with
        | long => PrimFloat.leb (low nb) (Position.stop pos) = false
                  /\ Num.geb (high nb) (Position.target pos) = true
        | short => Num.geb (high nb) (Position.stop pos) = false
                   /\ PrimFloat.leb (low nb) (Position.target pos) = true
        end)
  /\ ((check_exit pos next_row = None /\ exit_phase p next_row st = st)
      \/ (check_exit pos next_row = Some (Position.stop pos, stop_exit)
          /\ exit_phase p next_row st =
             {| position := None;
                trades := trades st ++
                  [close_trade p pos next_row (Position.stop pos) stop_exit] |})
      \/ (check_exit pos next_row = Some (Position.target pos, target_exit)
          /\ exit_phase p next_row st =
             {| position := None;
                trades := trades st ++
                  [close_trade p pos next_row (Position.target pos) target_exit] |})).
Proof.
  intros Hpos nb. unfold exit_phase. rewrite Hpos. unfold check_exit. fold nb.
  destruct (Position.direction pos);
    [destruct (PrimFloat.leb (low nb) (Position.stop pos)) eqn:Es;
     [|destruct (Num.geb (high nb) (Position.target pos)) eqn:Et]
    |destruct (Num.geb (high nb) (Position.stop pos)) eqn:Es;
     [|destruct (PrimFloat.leb (low nb) (Position.target pos)) eqn:Et]];
    (split; [intros; congruence|]); (split; [intros; congruence|]);
    (split; [intros px H; inversion H; auto|]); auto.
Qed.

Lemma stop_checked_before_target_witness :
  Num.geb (high (bar (ind (Sample.row Sample.params 6))))
          (Position.target Sample.spanned_long) = true
  /\ check_exit Sample.spanned_long (Sample.row Sample.params 6)
     = Some (101.5%float, stop_exit).
Proof.
  split; [vm_compute; reflexivity|].
  refine (proj1 (stop_checked_before_target Sample.params
            {| position := Some Sample.spanned_long; trades := [] |}
            Sample.spanned_long (Sample.row Sample.params 6) _) _ _).
  - reflexivity.
  - reflexivity.
  - vm_compute. reflexivity.
Defined.

(** ** The max-risk filter (C7) *)

(** C7, as the specification words it, on the sample frame with the risk
    cap lowered to 2 ticks: bar 2 has risk 1 > 0.5, and the claim would
    leave it without stop, target and risk.  The columns still hold 107,
    104 and 1. *)
Lemma filtered_row_keeps_its_levels :
  let p := Sample.with_stop 4 2 "fixed_rr" in
  let r := Sample.row p 2 in
  use_max_risk_filter p = true
  /\ In r (Sample.annotated p)
  /\ Num.gtb (risk r) (max_risk p) = true
  /\ ~ (Num.isna (stop_price r) = true /\ Num.isna (target_price r) = true
        /\ Num.isna (risk r) = true).
Proof.
  split; [reflexivity|]. split; [vm_compute; tauto|]. split; [vm_compute; reflexivity|].
  vm_compute. intros (H & _). discriminate.
Qed.

(** C7 (amended): with the max-risk filter enabled, a row whose risk
    exceeds [max_risk_ticks * tick_size] comes out of the calculator with
    both signal flags cleared, so that the simulator opens nothing from it;
    its stop, target and risk columns keep the values the setup blocks
    computed. *)
Theorem max_risk_filter_clears_signals (p : Params) (rows : list Row) (r : Row) :
  use_max_risk_filter p = true ->
  In r (calculate_stops_targets p rows) ->
  Num.gtb (risk r) (max_risk p) = true ->
  short_signal r = false /\ long_signal r = false
  /\ (forall next_row, open_position p r next_row = None)
  /\ exists r0, In r0 (long_setups p (short_setups p (init_levels rows)))
                /\ r = set_long_signal (set_short_signal r0 false) false.
Proof.
  intros Hf Hin Hr. rewrite calculate_stops_targets_map in Hin.
  apply in_map_iff in Hin as (r0 & <- & Hr0).
  destruct (filter_row_columns p (levels_row p r0)) as (_ & _ & _ & Hk & _).
  rewrite Hk in Hr. rewrite (filter_row_clears p _ Hf Hr).
  repeat split; try reflexivity.
  exists (levels_row p r0). split; [|reflexivity].
  rewrite unfiltered_map. now apply in_map.
Qed.

Lemma max_risk_filter_clears_signals_witness :
  short_signal (Sample.row (Sample.with_stop 4 2 "fixed_rr") 2) = false.
Proof.
  refine (proj1 (max_risk_filter_clears_signals (Sample.with_stop 4 2 "fixed_rr")
     (match calculate_indicators (Sample.with_stop 4 2 "fixed_rr") Sample.frame with
      | Some rows => generate_signals (Sample.with_stop 4 2 "fixed_rr") rows
      | None => [] end) _ _ _ _)).
  - reflexivity.
  - vm_compute. tauto.
  - vm_compute. reflexivity.
Defined.

(** ** Parameter construction (C9) *)

(** C9: the parameter set [objective] hands to the strategy has
    [max_displacement_strength >= min_displacement_strength]; a suggestion
    with the maximum below the minimum is not rejected but has its maximum
    raised to the minimum, so that the two are equal, and any other
    suggestion is passed on as it is.  The strategy object stores the set
    unchanged and runs on it, and the set rebuilt for the best trial is the
    same corrected set. *)
Theorem objective_params_ordered (t : Trial.t) (frame : list Bar) :
  let p := params (objective_strategy t frame) in
  min_displacement_strength p <= max_displacement_strength p
  /\ min_displacement_strength p = Trial.min_displacement_strength t
  /\ (Trial.max_displacement_strength t < Trial.min_displacement_strength t ->
      max_displacement_strength p = min_displacement_strength p
      /\ p = set_max_displacement_strength (suggested_params t)
                (Trial.min_displacement_strength t))
  /\ (Trial.min_displacement_strength t <= Trial.max_displacement_strength t ->
      p = suggested_params t)
  /\ best_params t = p
  /\ objective t frame =
     match run {| df := frame; params := p |} with
     | Some results =>
         if total_trades results <? 20 then Some (-1000)%float
         else Some (PrimFloat.sub
                      (PrimFloat.add (profit_factor results)
                                     (PrimFloat.div (win_rate results) 100))
                      (PrimFloat.div (max_drawdown results) 1000))
     | None => None
     end.
Proof.
  unfold objective, objective_strategy, init, best_params, ensure_max_ge_min.
  cbn -[run Z.ltb].
  destruct (Z.ltb_spec (Trial.max_displacement_strength t)
                       (Trial.min_displacement_strength t)) as [H|H];
    cbn -[run Z.ltb]; repeat split; intros; try reflexivity; lia.
Qed.

Lemma objective_params_ordered_witness :
  max_displacement_strength (params (objective_strategy Sample.crossed_trial Sample.frame)) = 3.
Proof.
  refine (proj1 (proj1 (proj2 (proj2
    (objective_params_ordered Sample.crossed_trial Sample.frame))) _)).
  vm_compute. reflexivity.
Defined.

(** ** The simulator loop *)

Lemma backtest_steps_S (p : Params) (df : list Row) (k : nat) :
  backtest_steps p df (S k) = step p df (backtest_steps p df k) k.
Proof.
  unfold backtest_steps. rewrite seq_S, fold_left_app. reflexivity.
Qed.

(** What one iteration does, by cases on the state it starts from. *)
Lemma step_cases (p : Params) (df : list Row) (st : State) (i : nat) :
  step p df st i = st
  \/ exists row next_row,
       nth_error df i = Some row /\ nth_error df (S i) = Some next_row
       /\ ((position st = None
            /\ step p df st i =
               {| position := open_position p row next_row; trades := trades st |})
           \/ (exists pos exit_price exit_reason,
                 position st = Some pos
                 /\ check_exit pos next_row = Some (exit_price, exit_reason)
                 /\ step p df st i =
                    {| position := open_position p row next_row;
                       trades := trades st ++
                         [close_trade p pos next_row exit_price exit_reason] |})).
Proof.
  unfold step.
  destruct (nth_error df i) as [row|] eqn:Ei; [|now left].
  destruct (nth_error df (S i)) as [next_row|] eqn:En; [|now left].
  unfold exit_phase, entry_phase.
  destruct (position st) as [pos|] eqn:Ep.
  - destruct (check_exit pos next_row) as [[px why]|] eqn:Ec.
    + right. exists row, next_row. repeat split; auto. right.
      exists pos, px, why. auto.
    + left. rewrite Ep. reflexivity.
  - right. exists row, next_row. repeat split; auto. left. rewrite Ep. auto.
Qed.

(** Every position the loop holds was opened from an earlier signal row,
    and every trade closes such a position in a later iteration. *)
Lemma backtest_steps_origin (p : Params) (df : list Row) (k : nat) :
  (forall pos, position (backtest_steps p df k) = Some pos ->
     exists i, (i < k)%nat /\ opened_at p df i pos)
  /\ (forall t, In t (trades (backtest_steps p df k)) ->
     exists i j, (j < k)%nat /\ closed_at p df i j t).
Proof.
  induction k as [|k [IHp IHt]].
  - split; [discriminate | contradiction].
  - rewrite backtest_steps_S.
    destruct (step_cases p df (backtest_steps p df k) k)
      as [-> | (row & next_row & Hr & Hn & [(Hp & ->) | (pos & px & why & Hp & Hc & ->)])].
    + split.
      * intros pos H. destruct (IHp pos H) as (i & Hi & Ho). exists i. split; [lia | exact Ho].
      * intros t H. destruct (IHt t H) as (i & j & Hj & Hcl). exists i, j. split; [lia | exact Hcl].
    + cbn [position trades]. split.
      * intros pos H. exists k. split; [lia|]. exists row, next_row. auto.
      * intros t H. destruct (IHt t H) as (i & j & Hj & Hcl). exists i, j. split; [lia | exact Hcl].
    + cbn [position trades]. split.
      * intros pos' H. exists k. split; [lia|]. exists row, next_row. auto.
      * intros t H. apply in_app_or in H as [H | [<- | []]].
        -- destruct (IHt t H) as (i & j & Hj & Hcl). exists i, j. split; [lia | exact Hcl].
        -- destruct (IHp pos Hp) as (i & Hi & Ho). exists i, k. split; [lia|].
           exists pos, next_row, px, why. auto.
Qed.

(** What [open_position] builds, read off its two branches. *)
Lemma open_position_inv (p : Params) (row next_row : Row) (pos : Position.t) :
  open_position p row next_row = Some pos ->
  let fill := open (bar (ind next_row)) in
  Position.entry pos = fill
  /\ Position.entry_time pos = time (bar (ind next_row))
  /\ Position.risk pos = risk row
  /\ Num.isna (stop_price row) = false
  /\ ((Position.direction pos = short /\ short_signal row = true
       /\ Position.stop pos = PrimFloat.add fill (risk row)
       /\ Position.target pos = PrimFloat.sub fill (PrimFloat.mul (risk row) (target_rr p)))
      \/ (Position.direction pos = long /\ long_signal row = true
          /\ Position.stop pos = PrimFloat.sub fill (risk row)
          /\ Position.target pos = PrimFloat.add fill (PrimFloat.mul (risk row) (target_rr p)))).
Proof.
  unfold open_position.
  destruct (short_signal row && negb (Num.isna (stop_price row))) eqn:Es.
  - intros [= <-]. apply andb_true_iff in Es as [Hs Hn]. apply negb_true_iff in Hn.
    simpl. do 3 (split; [reflexivity|]). split; [assumption|]. left. repeat split; auto.
  - destruct (long_signal row && negb (Num.isna (stop_price row))) eqn:El; [|discriminate].
    intros [= <-]. apply andb_true_iff in El as [Hl Hn]. apply negb_true_iff in Hn.
    simpl. do 3 (split; [reflexivity|]). split; [assumption|]. right. repeat split; auto.
Qed.

Lemma opened_at_levels (p : Params) (df : list Row) (i : nat) (pos : Position.t) :
  opened_at p df i pos ->
  exists row next_row,
    nth_error df i = Some row /\ nth_error df (S i) = Some next_row
    /\ levels_from_fill p row next_row (Position.direction pos) (Position.entry pos)
         (Position.stop pos) (Position.target pos) (Position.risk pos).
Proof.
  intros (row & next_row & Hr & Hn & Ho). exists row, next_row.
  split; [exact Hr|]. split; [exact Hn|].
  destruct (open_position_inv _ _ _ _ Ho) as (He & _ & Hk & _ & [(Hd & Hs & Hst & Ht) | (Hd & Hs & Hst & Ht)]);
    unfold levels_from_fill; rewrite Hd; auto.
Qed.

(** ** Levels of an opened position (C2) *)

(** C2: whatever the parameters (the target method among them), a position
    the simulator holds after any number of iterations was opened from a
    signal row [i] and filled at the open [f] of row [i+1]; its risk [r] is
    that row's risk, its direction that row's signal, its stop [f + r] and
    its target [f - r*target_rr] when short, [f - r] and [f + r*target_rr]
    when long.  Every emitted trade carries the levels of such a
    position. *)
Theorem opened_position_levels (p : Params) (df : list Row) (k : nat) :
  (forall pos, position (backtest_steps p df k) = Some pos ->
     exists i row next_row,
       (i < k)%nat /\ nth_error df i = Some row /\ nth_error df (S i) = Some next_row
       /\ levels_from_fill p row next_row (Position.direction pos) (Position.entry pos)
            (Position.stop pos) (Position.target pos) (Position.risk pos))
  /\ (forall t, In t (trades (backtest_steps p df k)) ->
     exists i row next_row,
       (i < k)%nat /\ nth_error df i = Some row /\ nth_error df (S i) = Some next_row
       /\ levels_from_fill p row next_row (Trade.direction t) (Trade.entry t)
            (Trade.stop t) (Trade.target t) (Trade.risk t)).
Proof.
  destruct (backtest_steps_origin p df k) as [Hp Ht]. split.
  - intros pos H. destruct (Hp pos H) as (i & Hi & Ho).
    destruct (opened_at_levels _ _ _ _ Ho) as (row & next_row & Hr & Hn & Hl).
    exists i, row, next_row. auto.
  - intros t H. destruct (Ht t H) as (i & j & Hj & pos & nx & px & why & Hij & Ho & _ & _ & ->).
    destruct (opened_at_levels _ _ _ _ Ho) as (row & next_row & Hr & Hn & Hl).
    exists i, row, next_row. split; [lia|]. split; [exact Hr|]. split; [exact Hn|]. exact Hl.
Qed.

Lemma opened_position_levels_witness :
  let p := Sample.params in
  exists i row next_row,
    (i < 3)%nat /\ nth_error (Sample.annotated p) i = Some row
    /\ nth_error (Sample.annotated p) (S i) = Some next_row
    /\ levels_from_fill p row next_row short 104.5 105.5 102.5 1.
Proof.
  refine (proj1 (opened_position_levels Sample.params (Sample.annotated Sample.params) 3)
            {| Position.direction := short; Position.entry := 104.5;
               Position.entry_time := 900; Position.stop := 105.5;
               Position.target := 102.5; Position.risk := 1 |} _).
  vm_compute. reflexivity.
Defined.

(** ** One-bar execution delay (C4) *)

(** C4: a position is filled at the open of the row that follows its
    signal row and is stamped with that row's time, and so is every
    emitted trade; on a frame whose times strictly increase the entry time
    is strictly later than the time of the signal row. *)
Theorem entry_after_signal_bar (p : Params) (df : list Row) (k : nat) :
  increasing_times df ->
  (forall pos, position (backtest_steps p df k) = Some pos ->
     exists i row next_row,
       nth_error df i = Some row /\ nth_error df (S i) = Some next_row
       /\ (short_signal row = true \/ long_signal row = true)
       /\ Position.entry pos = open (bar (ind next_row))
       /\ Position.entry_time pos = time (bar (ind next_row))
       /\ time (bar (ind row)) < Position.entry_time pos)
  /\ (forall t, In t (trades (backtest_steps p df k)) ->
     exists i row next_row,
       nth_error df i = Some row /\ nth_error df (S i) = Some next_row
       /\ (short_signal row = true \/ long_signal row = true)
       /\ Trade.entry t = open (bar (ind next_row))
       /\ Trade.entry_time t = time (bar (ind next_row))
       /\ time (bar (ind row)) < Trade.entry_time t).
Proof.
  intros Hinc.
  assert (X : forall i pos, opened_at p df i pos ->
     exists row next_row,
       nth_error df i = Some row /\ nth_error df (S i) = Some next_row
       /\ (short_signal row = true \/ long_signal row = true)
       /\ Position.entry pos = open (bar (ind next_row))
       /\ Position.entry_time pos = time (bar (ind next_row))
       /\ time (bar (ind row)) < Position.entry_time pos).
  { intros i pos (row & next_row & Hr & Hn & Ho). exists row, next_row.
    destruct (open_position_inv _ _ _ _ Ho) as (He & Het & _ & _ & Hd).
    repeat split; auto.
    - destruct Hd as [(_ & Hs & _) | (_ & Hs & _)]; auto.
    - rewrite Het. apply (Hinc i (S i)); auto. }
  destruct (backtest_steps_origin p df k) as [Hp Ht]. split.
  - intros pos H. destruct (Hp pos H) as (i & _ & Ho).
    destruct (X i pos Ho) as (row & next_row & Hx). exists i, row, next_row. exact Hx.
  - intros t H. destruct (Ht t H) as (i & j & _ & pos & nx & px & why & _ & Ho & _ & _ & ->).
    destruct (X i pos Ho) as (row & next_row & Hx). exists i, row, next_row. exact Hx.
Qed.

Lemma increasing_timesb_sound (df : list Row) :
  increasing_timesb df = true -> increasing_times df.
Proof.
  induction df as [|r t IH]; intros H i j ri rj Hij Hi Hj.
  - destruct i; discriminate.
  - simpl in H. apply andb_true_iff in H as [Hall Ht].
    destruct j as [|j]; [lia|]. simpl in Hj.
    destruct i as [|i]; simpl in Hi.
    + injection Hi as <-. apply nth_error_In in Hj.
      rewrite forallb_forall in Hall. apply Z.ltb_lt. now apply Hall.
    + apply (IH Ht i j); auto. lia.
Qed.

Lemma entry_after_signal_bar_witness :
  exists i row next_row,
    nth_error (Sample.annotated Sample.params) i = Some row
    /\ nth_error (Sample.annotated Sample.params) (S i) = Some next_row
    /\ (short_signal row = true \/ long_signal row = true)
    /\ 104.5%float = open (bar (ind next_row))
    /\ 900 = time (bar (ind next_row))
    /\ time (bar (ind row)) < 900.
Proof.
  refine (proj1 (entry_after_signal_bar Sample.params (Sample.annotated Sample.params) 3 _)
            {| Position.direction := short; Position.entry := 104.5;
               Position.entry_time := 900; Position.stop := 105.5;
               Position.target := 102.5; Position.risk := 1 |} _).
  - apply increasing_timesb_sound. vm_compute. reflexivity.
  - vm_compute. reflexivity.
Defined.

(** ** Risk of an opened position (C8) *)

(** C8, as the specification words it, on the sample frame with a fixed
    stop of 0 ticks: bar 2 signals short with risk 0, which is not > 0, and
    the claim would have it open nothing.  The simulator opens a position
    from it at the third iteration and later emits its trade, with risk 0. *)
Lemma zero_risk_bar_opens_a_position :
  let p := Sample.with_stop 0 60 "fixed_rr" in
  let df := Sample.annotated p in
  short_signal (Sample.row p 2) = true
  /\ Num.gtb (risk (Sample.row p 2)) 0 = false
  /\ nth_error df 2 = Some (Sample.row p 2)
  /\ nth_error df 3 = Some (Sample.row p 3)
  /\ position (backtest_steps p df 3) = open_position p (Sample.row p 2) (Sample.row p 3)
  /\ open_position p (Sample.row p 2) (Sample.row p 3) <> None
  /\ exists t, In t (trades (backtest_loop p df))
               /\ Trade.entry_time t = time (bar (ind (Sample.row p 3)))
               /\ Num.gtb (Trade.risk t) 0 = false.
Proof.
  repeat split; try (vm_compute; reflexivity).
  - vm_compute. discriminate.
  - exists (nth 0 (trades (backtest_loop (Sample.with_stop 0 60 "fixed_rr")
                             (Sample.annotated (Sample.with_stop 0 60 "fixed_rr"))))
                (close_trade Sample.params Sample.spanned_long (Sample.row Sample.params 0)
                             0 stop_exit)).
    repeat split; try (vm_compute; reflexivity).
    vm_compute. tauto.
Qed.

(** C8 (amended): the simulator does not test the sign of the risk.  A
    flat simulator opens a position from any row that carries a signal and
    a defined stop price, whatever its risk; every position it holds, and
    every trade it emits, comes from such a row and carries that row's risk
    unchanged; only the trade's R-multiple looks at the sign, and is 0 when
    the risk is not > 0. *)
Theorem opened_position_risk (p : Params) (df : list Row) (k : nat) :
  (forall row next_row,
     short_signal row = true \/ long_signal row = true ->
     Num.isna (stop_price row) = false ->
     exists pos, open_position p row next_row = Some pos /\ Position.risk pos = risk row)
  /\ (forall pos, position (backtest_steps p df k) = Some pos ->
     exists i row,
       (i < k)%nat /\ nth_error df i = Some row
       /\ (short_signal row = true \/ long_signal row = true)
       /\ Num.isna (stop_price row) = false
       /\ Position.risk pos = risk row)
  /\ (forall t, In t (trades (backtest_steps p df k)) ->
     (exists i row,
       (i < k)%nat /\ nth_error df i = Some row
       /\ (short_signal row = true \/ long_signal row = true)
       /\ Num.isna (stop_price row) = false
       /\ Trade.risk t = risk row)
     /\ Trade.r_multiple t =
        if Num.gtb (Trade.risk t) 0
        then PrimFloat.div (Trade.pnl_points t) (Trade.risk t) else 0%float).
Proof.
  assert (X : forall i pos, opened_at p df i pos ->
     exists row, nth_error df i = Some row
       /\ (short_signal row = true \/ long_signal row = true)
       /\ Num.isna (stop_price row) = false
       /\ Position.risk pos = risk row).
  { intros i pos (row & next_row & Hr & Hn & Ho). exists row.
    destruct (open_position_inv _ _ _ _ Ho) as (_ & _ & Hk & Hna & Hd).
    repeat split; auto.
    destruct Hd as [(_ & Hs & _) | (_ & Hs & _)]; auto. }
  destruct (backtest_steps_origin p df k) as [Hp Ht]. split; [|split].
  - intros row next_row Hs Hna. unfold open_position. rewrite Hna. simpl.
    rewrite !andb_true_r.
    destruct (short_signal row); [eexists; split; reflexivity|].
    destruct Hs as [Hs | Hs]; [discriminate|]. rewrite Hs.
    eexists; split; reflexivity.
  - intros pos H. destruct (Hp pos H) as (i & Hi & Ho).
    destruct (X i pos Ho) as (row & Hx). exists i, row. auto.
  - intros t H. destruct (Ht t H) as (i & j & Hj & pos & nx & px & why & Hij & Ho & _ & _ & ->).
    split; [|reflexivity].
    destruct (X i pos Ho) as (row & Hx). exists i, row. split; [lia|]. exact Hx.
Qed.

Lemma opened_position_risk_witness :
  let p := Sample.with_stop 0 60 "fixed_rr" in
  exists pos, open_position p (Sample.row p 2) (Sample.row p 3) = Some pos
              /\ Position.risk pos = risk (Sample.row p 2).
Proof.
  refine (proj1 (opened_position_risk (Sample.with_stop 0 60 "fixed_rr")
                   (Sample.annotated (Sample.with_stop 0 60 "fixed_rr")) 3) _ _ _ _).
  - left. vm_compute. reflexivity.
  - vm_compute. reflexivity.
Defined.

(** ** One position at a time (C5) *)

Lemma ForallOrdPairs_snoc {A : Type} (R : A -> A -> Prop) (l : list A) (x : A) :
  ForallOrdPairs R l -> Forall (fun a => R a x) l -> ForallOrdPairs R (l ++ [x]).
Proof.
  induction 1 as [|a l Ha Hl IH]; intros Hx; simpl.
  - constructor; constructor.
  - inversion Hx; subst. constructor.
    + apply Forall_app. split; [assumption | constructor; [assumption | constructor]].
    + now apply IH.
Qed.

Lemma row_before (df : list Row) (k : nat) (r' : Row) :
  nth_error df (S k) = Some r' -> exists r, nth_error df k = Some r.
Proof.
  intros H. destruct (nth_error df k) as [r|] eqn:E; [now exists r|].
  apply nth_error_None in E.
  assert (X : nth_error df (S k) <> None) by congruence.
  apply nth_error_Some in X. lia.
Qed.

(** The times kept by the loop after [k] iterations: trades are over by
    row [k], each entered before it was exited and after the one before it
    was exited; the open position was entered by row [k], after every
    trade was exited. *)
Lemma backtest_steps_times (p : Params) (df : list Row) (k : nat) :
  increasing_times df ->
  let st := backtest_steps p df k in
  ForallOrdPairs precedes (trades st)
  /\ (forall t, In t (trades st) ->
       Trade.entry_time t < Trade.exit_time t
       /\ forall r, nth_error df k = Some r -> Trade.exit_time t <= time (bar (ind r)))
  /\ (forall pos, position st = Some pos ->
       (forall r, nth_error df k = Some r -> Position.entry_time pos <= time (bar (ind r)))
       /\ forall t, In t (trades st) -> Trade.exit_time t <= Position.entry_time pos).
Proof.
  intros Hinc. induction k as [|k (I1 & I2 & I3)].
  - cbn. split; [constructor|]. split; [contradiction | discriminate].
  - cbn zeta in *. rewrite backtest_steps_S.
    set (st := backtest_steps p df k) in *.
    assert (Hmono : forall r', nth_error df (S k) = Some r' ->
              exists r, nth_error df k = Some r /\ time (bar (ind r)) < time (bar (ind r'))).
    { intros r' H'. destruct (row_before _ _ _ H') as [r Hr]. exists r. split; [exact Hr|].
      apply (Hinc k (S k)); auto. }
    destruct (step_cases p df st k)
      as [-> | (row & next_row & Hr & Hn & [(Hp & ->) | (pos & px & why & Hp & Hc & ->)])].
    + split; [exact I1|]. split.
      * intros t Ht. destruct (I2 t Ht) as [Ha Hb]. split; [exact Ha|].
        intros r' H'. destruct (Hmono r' H') as (r & Hr & Hlt). specialize (Hb r Hr). lia.
      * intros pos Hpos. destruct (I3 pos Hpos) as [Ha Hb]. split; [|exact Hb].
        intros r' H'. destruct (Hmono r' H') as (r & Hr & Hlt). specialize (Ha r Hr). lia.
    + cbn [position trades]. destruct (Hmono _ Hn) as (r & Hr' & Hlt).
      rewrite Hr in Hr'. injection Hr' as <-.
      split; [exact I1|]. split.
      * intros t Ht. destruct (I2 t Ht) as [Ha Hb]. split; [exact Ha|].
        intros r' H'. rewrite Hn in H'. injection H' as <-. specialize (Hb row Hr). lia.
      * intros pos Ho. destruct (open_position_inv _ _ _ _ Ho) as (_ & Het & _).
        rewrite Het. split.
        -- intros r' H'. rewrite Hn in H'. injection H' as <-. lia.
        -- intros t Ht. destruct (I2 t Ht) as [_ Hb]. specialize (Hb row Hr). lia.
    + cbn [position trades]. destruct (Hmono _ Hn) as (r & Hr' & Hlt).
      rewrite Hr in Hr'. injection Hr' as <-.
      destruct (I3 pos Hp) as [Ha Hb]. specialize (Ha row Hr).
      assert (Hnew : forall t, In t (trades st ++ [close_trade p pos next_row px why]) ->
                Trade.entry_time t < Trade.exit_time t
                /\ Trade.exit_time t <= time (bar (ind next_row))).
      { intros t Ht. apply in_app_or in Ht as [Ht | [<- | []]].
        - destruct (I2 t Ht) as [Hx Hy]. specialize (Hy row Hr). lia.
        - cbn. lia. }
      split; [|split].
      * apply ForallOrdPairs_snoc; [exact I1|]. apply Forall_forall.
        intros t Ht. unfold precedes. cbn. now apply Hb.
      * intros t Ht. destruct (Hnew t Ht) as [Hx Hy]. split; [exact Hx|].
        intros r' H'. rewrite Hn in H'. injection H' as <-. exact Hy.
      * intros pos' Ho. destruct (open_position_inv _ _ _ _ Ho) as (_ & Het & _).
        rewrite Het. split.
        -- intros r' H'. rewrite Hn in H'. injection H' as <-. lia.
        -- intros t Ht. now destruct (Hnew t Ht).
Qed.

(** C5: the simulator holds at most one position.  The entry test leaves
    a state that holds a position as it is, so that an iteration whose exit
    test does not fire changes nothing (no pyramiding); a position found
    after an iteration is the one held before it, or was opened in that
    iteration from a state that the exit test had left flat.  In simulated
    time, on a frame whose times strictly increase: every trade is entered
    before it is exited, trades follow one another without overlap, and the
    position still open was entered after every trade was exited. *)
Theorem one_position_at_a_time (p : Params) (df : list Row) (k : nat) :
  increasing_times df ->
  let st := backtest_steps p df k in
  let st' := backtest_steps p df (S k) in
  (forall row next_row mid pos,
     position mid = Some pos -> entry_phase p row next_row mid = mid)
  /\ (forall pos next_row,
       position st = Some pos -> nth_error df (S k) = Some next_row ->
       check_exit pos next_row = None -> st' = st)
  /\ (forall pos',
       position st' = Some pos' ->
       position st = Some pos'
       \/ (opened_at p df k pos'
           /\ exists next_row, nth_error df (S k) = Some next_row
                               /\ position (exit_phase p next_row st) = None))
  /\ ForallOrdPairs precedes (trades st)
  /\ (forall t, In t (trades st) -> Trade.entry_time t < Trade.exit_time t)
  /\ (forall pos t, position st = Some pos -> In t (trades st) ->
       Trade.exit_time t <= Position.entry_time pos).
Proof.
  intros Hinc st st'.
  destruct (backtest_steps_times p df k Hinc) as (I1 & I2 & I3). fold st in I1, I2, I3.
  split; [|split; [|split; [|split; [|split]]]].
  - intros row next_row mid pos H. unfold entry_phase. now rewrite H.
  - intros pos next_row Hp Hn Hc. unfold st'. rewrite backtest_steps_S. fold st.
    unfold step. rewrite Hn. destruct (nth_error df k); [|reflexivity].
    unfold exit_phase. rewrite Hp, Hc. unfold entry_phase. now rewrite Hp.
  - intros pos' H. unfold st' in H. rewrite backtest_steps_S in H. fold st in H.
    destruct (step_cases p df st k)
      as [E | (row & next_row & Hr & Hn & [(Hp & E) | (pos & px & why & Hp & Hc & E)])];
      rewrite E in H.
    + now left.
    + right. cbn [position] in H. split; [exists row, next_row; auto|].
      exists next_row. split; [exact Hn|]. unfold exit_phase. now rewrite Hp.
    + right. cbn [position] in H. split; [exists row, next_row; auto|].
      exists next_row. split; [exact Hn|]. unfold exit_phase. now rewrite Hp, Hc.
  - exact I1.
  - intros t Ht. now destruct (I2 t Ht).
  - intros pos t Hp Ht. destruct (I3 pos Hp) as [_ Hb]. now apply Hb.
Qed.

Lemma one_position_at_a_time_witness :
  ForallOrdPairs precedes (trades (backtest_loop Sample.params (Sample.annotated Sample.params))).
Proof.
  refine (proj1 (proj2 (proj2 (proj2
    (one_position_at_a_time Sample.params (Sample.annotated Sample.params) 6 _))))).
  apply increasing_timesb_sound. vm_compute. reflexivity.
Defined.

(** ** No lookahead (C6) *)

Lemma firstn_shift_from (k : nat) (prev : float) (s : list float) :
  firstn k (Column.shift_from prev s) = Column.shift_from prev (firstn k s).
Proof.
  revert k prev. induction s as [|x t IH]; intros [|k] prev; simpl; try reflexivity.
  now rewrite IH.
Qed.

Lemma firstn_rolling_from (agg : list float -> float) (n k : nat) (seen s : list float) :
  firstn k (Column.rolling_from agg n seen s)
  = Column.rolling_from agg n seen (firstn k s).
Proof.
  revert k seen. induction s as [|x t IH]; intros [|k] seen; simpl; try reflexivity.
  now rewrite IH.
Qed.

Lemma firstn_ewm_from (k : nat) (alpha prev : float) (s : list float) :
  firstn k (Column.ewm_from alpha prev s) = Column.ewm_from alpha prev (firstn k s).
Proof.
  revert k prev. induction s as [|x t IH]; intros [|k] prev; simpl; try reflexivity.
  now rewrite IH.
Qed.

Lemma firstn_ewm_mean (k : nat) (span : Z) (s : list float) :
  firstn k (Column.ewm_mean span s) = Column.ewm_mean span (firstn k s).
Proof.
  unfold Column.ewm_mean. destruct s as [|x t], k as [|k]; simpl; try reflexivity.
  now rewrite firstn_ewm_from.
Qed.

Lemma firstn_map4 {A B C D E : Type} (f : A -> B -> C -> D -> E) (k : nat) la lb lc ld :
  firstn k (map4 f la lb lc ld)
  = map4 f (firstn k la) (firstn k lb) (firstn k lc) (firstn k ld).
Proof.
  revert k lb lc ld.
  induction la as [|a la IH]; intros [|k] [|b lb] [|c lc] [|d ld]; simpl;
    try reflexivity.
  now rewrite IH.
Qed.

Lemma firstn_calculate_atr (k period : nat) (frame : list Bar) :
  firstn k (_calculate_atr frame period) = _calculate_atr (firstn k frame) period.
Proof.
  unfold _calculate_atr, Column.rolling_mean, Column.rolling, Column.shift1.
  now rewrite firstn_rolling_from, !firstn_map, combine_firstn, firstn_shift_from, firstn_map.
Qed.

Lemma firstn_calculate_indicators (p : Params) (k : nat) (frame : list Bar) :
  calculate_indicators p (firstn k frame)
  = option_map (firstn k) (calculate_indicators p frame).
Proof.
  unfold calculate_indicators. destruct (windows_ok p); [|reflexivity].
  simpl. f_equal. rewrite firstn_map4. f_equal.
  - unfold Column.rolling_std, Column.rolling. now rewrite firstn_rolling_from, firstn_map.
  - now rewrite firstn_ewm_mean, firstn_map.
  - now rewrite firstn_calculate_atr.
Qed.

(** C6: the indicator rows and the signals of a prefix of the frame are
    the corresponding prefix of the rows and signals of the whole frame,
    also after the risk-level calculator has filtered the signals (and the
    run on the prefix raises exactly when the run on the whole frame does);
    row [i] is therefore the same whether it is computed from the whole
    frame or from any prefix that contains index [i]. *)
Theorem no_lookahead (p : Params) (frame : list Bar) (k : nat) :
  calculate_indicators p (firstn k frame)
  = option_map (firstn k) (calculate_indicators p frame)
  /\ option_map (generate_signals p) (calculate_indicators p (firstn k frame))
     = option_map (fun rows => firstn k (generate_signals p rows))
                  (calculate_indicators p frame)
  /\ option_map (fun rows => calculate_stops_targets p (generate_signals p rows))
                (calculate_indicators p (firstn k frame))
     = option_map (fun rows => firstn k (calculate_stops_targets p (generate_signals p rows)))
                  (calculate_indicators p frame)
  /\ forall i, (i < k)%nat ->
       option_map (fun rows => nth_error rows i) (calculate_indicators p (firstn k frame))
       = option_map (fun rows => nth_error rows i) (calculate_indicators p frame)
       /\ option_map (fun rows => nth_error (generate_signals p rows) i)
                     (calculate_indicators p (firstn k frame))
          = option_map (fun rows => nth_error (generate_signals p rows) i)
                       (calculate_indicators p frame).
Proof.
  rewrite firstn_calculate_indicators.
  destruct (calculate_indicators p frame) as [rows|]; simpl.
  - split; [reflexivity|]. unfold generate_signals. rewrite firstn_map.
    split; [reflexivity|].
    split; [now rewrite !calculate_stops_targets_map, !firstn_map|]. intros i Hi.
    rewrite <- firstn_map, !nth_error_firstn.
    apply Nat.ltb_lt in Hi. rewrite Hi. split; reflexivity.
  - repeat split; reflexivity.
Qed.

Lemma no_lookahead_witness :
  option_map (fun rows => nth_error (generate_signals Sample.params rows) 2%nat)
             (calculate_indicators Sample.params (firstn 4%nat Sample.frame))
  = option_map (fun rows => nth_error (generate_signals Sample.params rows) 2%nat)
               (calculate_indicators Sample.params Sample.frame).
Proof.
  refine (proj2 (proj2 (proj2 (proj2 (no_lookahead Sample.params Sample.frame 4%nat))) 2%nat _)).
  lia.
Defined.

(** ** Parameters without effect on the backtest (C10) *)

(** The simulator never reads the [target_price] column. *)
Lemma step_blank_target (p : Params) (df : list Row) (st : State) (i : nat) :
  step p (map blank_target df) st i = step p df st i.
Proof.
  unfold step. rewrite !nth_error_map.
  destruct (nth_error df i) as [row|]; [|reflexivity].
  destruct (nth_error df (S i)) as [next_row|]; reflexivity.
Qed.

Lemma backtest_steps_blank_target (p : Params) (df : list Row) (k : nat) :
  backtest_steps p (map blank_target df) k = backtest_steps p df k.
Proof.
  induction k as [|k IH]; [reflexivity|].
  now rewrite !backtest_steps_S, IH, step_blank_target.
Qed.

Lemma backtest_blank_target (p : Params) (df : list Row) :
  backtest p (map blank_target df) = backtest p df.
Proof.
  unfold backtest, backtest_loop.
  now rewrite length_map, backtest_steps_blank_target.
Qed.

(** The target method reaches the [target_price] column only. *)
Lemma levels_row_blank_target (p : Params) (em tm : string) (zb : Z) (r : Row) :
  blank_target (filter_row (with_unread p em tm zb) (levels_row (with_unread p em tm zb) r))
  = blank_target (filter_row p (levels_row p r)).
Proof.
  assert (L : blank_target (levels_row (with_unread p em tm zb) r)
              = blank_target (levels_row p r)).
  { unfold levels_row, long_row, short_row, init_row.
    destruct (short_signal r) eqn:Es, (long_signal r) eqn:El; simpl;
      rewrite ?Es, ?El; simpl; rewrite ?El; reflexivity. }
  assert (F : forall q x, blank_target (filter_row q x) = filter_row q (blank_target x)).
  { intros q x. unfold filter_row.
    destruct (use_max_risk_filter q); [|reflexivity].
    cbn [risk blank_target].
    destruct (Num.gtb (risk x) (max_risk q)) eqn:E; simpl; rewrite ?E; reflexivity. }
  rewrite !F, L. reflexivity.
Qed.

(** C10: replacing [entry_method], [target_method] and
    [zone_extend_bars] in a parameter set changes nothing in what the
    pipeline returns for a frame, be it the metrics with their trade list
    or the failure of the run: two parameter sets that differ in these
    three fields only give the same result. *)
Theorem unread_parameters (p : Params) (em tm : string) (zb : Z) (frame : list Bar) :
  run (init frame (Some (with_unread p em tm zb))) = run (init frame (Some p)).
Proof.
  unfold run, init. cbn [params df].
  change (calculate_indicators (with_unread p em tm zb) frame)
    with (calculate_indicators p frame).
  destruct (calculate_indicators p frame) as [rows|]; [|reflexivity].
  f_equal.
  change (generate_signals (with_unread p em tm zb) rows) with (generate_signals p rows).
  change (backtest (with_unread p em tm zb)) with (backtest p).
  rewrite <- (backtest_blank_target p (calculate_stops_targets (with_unread p em tm zb) _)).
  rewrite <- (backtest_blank_target p (calculate_stops_targets p _)).
  f_equal. rewrite !calculate_stops_targets_map, !map_map.
  apply map_ext. intros r. apply levels_row_blank_target.
Qed.

(** * Further properties of the pipeline *)

(** ** More facts about binary64 comparison and NaN *)

Lemma SFcompare_antisym (a b : spec_float) :
  SFcompare b a = option_map CompOpp (SFcompare a b).
Proof.
  destruct a as [sa| sa | | sa ma ea], b as [sb | sb | | sb mb eb]; simpl;
    try reflexivity;
    try (destruct sa; try destruct sb; reflexivity).
  destruct sa, sb; try reflexivity;
    rewrite (Z.compare_antisym ea eb);
    destruct (ea ?= eb)%Z; simpl; try reflexivity;
    rewrite !Pos.compare_cont_spec; simpl;
    rewrite (Pos.compare_antisym ma mb);
    destruct (ma ?= mb)%positive; reflexivity.
Qed.

Lemma SFcompare_refl (a : spec_float) :
  a <> S754_nan -> SFcompare a a = Some Eq.
Proof.
  destruct a as [s | s | | s m e]; simpl; intros H; try congruence.
  - destruct s; reflexivity.
  - rewrite Z.compare_refl, Pos.compare_cont_refl. destruct s; reflexivity.
Qed.

Lemma Prim2SF_nan : Prim2SF PrimFloat.nan = S754_nan.
Proof. vm_compute. reflexivity. Qed.

Lemma isna_spec (x : float) : Num.isna x = true <-> Prim2SF x = S754_nan.
Proof.
  unfold Num.isna, is_nan. rewrite eqb_spec. unfold SFeqb. split.
  - intros H. destruct (Prim2SF x) eqn:E; try reflexivity;
      rewrite SFcompare_refl in H by discriminate; discriminate.
  - intros ->. reflexivity.
Qed.

Lemma isna_nan : Num.isna PrimFloat.nan = true.
Proof. reflexivity. Qed.

(** Comparisons with a NaN on either side are false. *)
Lemma ltb_isna_l (x y : float) : Num.isna x = true -> PrimFloat.ltb x y = false.
Proof.
  intros H. apply isna_spec in H. rewrite ltb_spec, H. reflexivity.
Qed.

Lemma ltb_isna_r (x y : float) : Num.isna y = true -> PrimFloat.ltb x y = false.
Proof.
  intros H. apply isna_spec in H. rewrite ltb_spec, H. unfold SFltb.
  destruct (Prim2SF x); reflexivity.
Qed.

Lemma leb_isna_l (x y : float) : Num.isna x = true -> PrimFloat.leb x y = false.
Proof.
  intros H. apply isna_spec in H. rewrite leb_spec, H. reflexivity.
Qed.

Lemma leb_isna_r (x y : float) : Num.isna y = true -> PrimFloat.leb x y = false.
Proof.
  intros H. apply isna_spec in H. rewrite leb_spec, H. unfold SFleb.
  destruct (Prim2SF x); reflexivity.
Qed.

Lemma ltb_irrefl (x : float) : PrimFloat.ltb x x = false.
Proof.
  destruct (PrimFloat.ltb x x) eqn:E; [|reflexivity].
  pose proof (ltb_asym _ _ E). congruence.
Qed.

(** [a < b] excludes [b <= a]; on numbers one of the two holds. *)
Lemma ltb_not_leb (a b : float) : PrimFloat.ltb a b = true -> PrimFloat.leb b a = false.
Proof.
  rewrite ltb_spec, leb_spec. unfold SFltb, SFleb.
  rewrite (SFcompare_antisym (Prim2SF a) (Prim2SF b)).
  destruct (SFcompare (Prim2SF a) (Prim2SF b)) as [[| |]|]; simpl; congruence.
Qed.

Lemma ltb_or_leb (a b : float) :
  Num.isna a = false -> Num.isna b = false ->
  PrimFloat.ltb a b = true \/ PrimFloat.leb b a = true.
Proof.
  intros Ha Hb. rewrite ltb_spec, leb_spec. unfold SFltb, SFleb.
  rewrite (SFcompare_antisym (Prim2SF a) (Prim2SF b)).
  destruct (SFcompare (Prim2SF a) (Prim2SF b)) as [[| |]|] eqn:E; simpl; auto.
  exfalso.
  apply not_true_iff_false in Ha, Hb.
  destruct (Prim2SF a) eqn:Ea; try (apply Ha; now apply isna_spec);
    destruct (Prim2SF b) eqn:Eb; try (apply Hb; now apply isna_spec);
    simpl in E; discriminate.
Qed.

(** Arithmetic on a NaN operand gives a NaN. *)
Lemma add_isna_r (x y : float) : Num.isna y = true -> Num.isna (PrimFloat.add x y) = true.
Proof.
  intros H. apply isna_spec in H. apply isna_spec. rewrite add_spec, H.
  unfold SF64add, SFadd. destruct (Prim2SF x); reflexivity.
Qed.

Lemma sub_isna_r (x y : float) : Num.isna y = true -> Num.isna (PrimFloat.sub x y) = true.
Proof.
  intros H. apply isna_spec in H. apply isna_spec. rewrite sub_spec, H.
  unfold SF64sub, SFsub. destruct (Prim2SF x); reflexivity.
Qed.

Lemma sub_isna_l (x y : float) : Num.isna x = true -> Num.isna (PrimFloat.sub x y) = true.
Proof.
  intros H. apply isna_spec in H. apply isna_spec. rewrite sub_spec, H. reflexivity.
Qed.

Lemma mul_isna_l (x y : float) : Num.isna x = true -> Num.isna (PrimFloat.mul x y) = true.
Proof.
  intros H. apply isna_spec in H. apply isna_spec. rewrite mul_spec, H. reflexivity.
Qed.

(** ** Rows, index by index *)

Lemma nth_error_map4 {A B C D E : Type} (f : A -> B -> C -> D -> E) la lb lc ld i x :
  nth_error (map4 f la lb lc ld) i = Some x ->
  exists a b c d,
    nth_error la i = Some a /\ nth_error lb i = Some b
    /\ nth_error lc i = Some c /\ nth_error ld i = Some d /\ x = f a b c d.
Proof.
  revert lb lc ld i.
  induction la as [|a la IH]; intros [|b lb] [|c lc] [|d ld] [|i]; simpl;
    try discriminate.
  - intros [= <-]. exists a, b, c, d. auto.
  - apply IH.
Qed.

Lemma nth_error_map_Some {A B : Type} (f : A -> B) (l : list A) (i : nat) (y : B) :
  nth_error (map f l) i = Some y -> exists x, nth_error l i = Some x /\ y = f x.
Proof.
  rewrite nth_error_map. destruct (nth_error l i) as [x|]; [|discriminate].
  intros [= <-]. exists x. auto.
Qed.

Lemma length_shift_from (prev : float) (s : list float) :
  List.length (Column.shift_from prev s) = List.length s.
Proof.
  revert prev. induction s as [|x t IH]; intros prev; simpl; [reflexivity | now rewrite IH].
Qed.

Lemma length_rolling_from (agg : list float -> float) (n : nat) (seen s : list float) :
  List.length (Column.rolling_from agg n seen s) = List.length s.
Proof.
  revert seen. induction s as [|x t IH]; intros seen; simpl; [reflexivity | now rewrite IH].
Qed.

Lemma length_ewm_from (alpha prev : float) (s : list float) :
  List.length (Column.ewm_from alpha prev s) = List.length s.
Proof.
  revert prev. induction s as [|x t IH]; intros prev; simpl; [reflexivity | now rewrite IH].
Qed.

Lemma length_ewm_mean (span : Z) (s : list float) :
  List.length (Column.ewm_mean span s) = List.length s.
Proof.
  unfold Column.ewm_mean. destruct s as [|x t]; simpl; [reflexivity|].
  now rewrite length_ewm_from.
Qed.

Lemma length_calculate_atr (frame : list Bar) (period : nat) :
  List.length (_calculate_atr frame period) = List.length frame.
Proof.
  unfold _calculate_atr, Column.rolling_mean, Column.rolling, Column.shift1.
  rewrite length_rolling_from, length_map, length_combine, length_shift_from, length_map.
  apply Nat.min_id.
Qed.

Lemma map4_project {A B C D E : Type} (f : A -> B -> C -> D -> E) (g : E -> A)
      (la : list A) (lb : list B) (lc : list C) (ld : list D) :
  (forall a b c d, g (f a b c d) = a) ->
  List.length lb = List.length la -> List.length lc = List.length la ->
  List.length ld = List.length la ->
  map g (map4 f la lb lc ld) = la.
Proof.
  intros Hg. revert lb lc ld.
  induction la as [|a la IH]; intros [|b lb] [|c lc] [|d ld]; simpl;
    try discriminate; try reflexivity.
  intros [= Hb] [= Hc] [= Hd]. now rewrite Hg, IH.
Qed.

(** A rolling column is NaN on the rows before its window is full. *)
Lemma rolling_from_warm_up (agg : list float -> float) (n : nat) (seen s : list float)
      (i : nat) (v : float) :
  nth_error (Column.rolling_from agg n seen s) i = Some v ->
  (List.length seen + i + 1 < n)%nat -> v = PrimFloat.nan.
Proof.
  revert seen i. induction s as [|x t IH]; intros seen [|i]; simpl; try discriminate.
  - intros [= <-] H.
    destruct (Nat.leb_spec n (S (List.length seen))) as [L|L]; [lia | reflexivity].
  - intros Hv H. apply (IH (x :: seen) i Hv). simpl. lia.
Qed.

(** Row [i] of the indicator frame, with the cells it is built from. *)
Lemma nth_error_calculate_indicators (p : Params) (frame : list Bar)
      (rows : list IndicatorRow) (i : nat) (r : IndicatorRow) :
  calculate_indicators p frame = Some rows -> nth_error rows i = Some r ->
  exists b s e a,
    nth_error frame i = Some b
    /\ nth_error (Column.rolling_std (Z.to_nat (displacement_length p))
                    (map (fun b => PrimFloat.abs (PrimFloat.sub (close b) (open b))) frame)) i
       = Some s
    /\ nth_error (Column.ewm_mean (trend_ema_length p) (map close frame)) i = Some e
    /\ nth_error (_calculate_atr frame 14) i = Some a
    /\ r = indicator_row p b s e a.
Proof.
  unfold calculate_indicators. destruct (windows_ok p); [|discriminate].
  intros [= <-] H. apply nth_error_map4 in H. exact H.
Qed.

(** Row [i] of the annotated frame comes from row [i] of its input. *)
Lemma nth_error_calculate_stops_targets (p : Params) (rows : list Row) (i : nat) (r : Row) :
  nth_error (calculate_stops_targets p rows) i = Some r ->
  exists r0, nth_error rows i = Some r0 /\ r = filter_row p (levels_row p r0).
Proof.
  rewrite calculate_stops_targets_map. apply nth_error_map_Some.
Qed.

(** ** One row per bar *)

(** X1: each of the three stages keeps one row per bar, in the order of
    the frame: the bars read back from the indicator rows, and from the
    rows after signals and levels, are the input frame itself. *)
Theorem one_row_per_bar (p : Params) (frame : list Bar) (rows : list IndicatorRow) :
  calculate_indicators p frame = Some rows ->
  map bar rows = frame
  /\ map (fun r => bar (ind r)) (generate_signals p rows) = frame
  /\ map (fun r => bar (ind r)) (calculate_stops_targets p (generate_signals p rows)) = frame
  /\ List.length (calculate_stops_targets p (generate_signals p rows)) = List.length frame.
Proof.
  intros H.
  assert (Hb : map bar rows = frame).
  { unfold calculate_indicators in H. destruct (windows_ok p); [|discriminate].
    injection H as <-. apply map4_project.
    - reflexivity.
    - unfold Column.rolling_std, Column.rolling. now rewrite length_rolling_from, length_map.
    - now rewrite length_ewm_mean, length_map.
    - apply length_calculate_atr. }
  assert (Hs : map (fun r => bar (ind r)) (generate_signals p rows) = frame).
  { unfold generate_signals. rewrite map_map. exact Hb. }
  assert (Hl : map (fun r => bar (ind r)) (calculate_stops_targets p (generate_signals p rows))
               = frame).
  { rewrite calculate_stops_targets_map, map_map.
    transitivity (map (fun r => bar (ind r)) (generate_signals p rows)); [|exact Hs].
    apply map_ext. intros r.
    destruct (filter_row_columns p (levels_row p r)) as (-> & _).
    destruct (levels_row_keeps p r) as (-> & _). reflexivity. }
  repeat split; auto.
  apply (f_equal (@List.length Bar)) in Hl. now rewrite length_map in Hl.
Qed.

Lemma one_row_per_bar_witness :
  map bar (Demo.indicators Sample.params) = Sample.frame.
Proof.
  refine (proj1 (one_row_per_bar Sample.params Sample.frame
                   (Demo.indicators Sample.params) _)).
  vm_compute. reflexivity.
Defined.

(** ** Signals exclude one another *)

(** X2: on the frame the pipeline annotates no candle is both bullish and
    bearish and no bar is both in an uptrend and in a downtrend, so that no
    row carries a short and a long signal together, in any direction mode,
    before or after the level calculator: the order in which the simulator
    tests the two flags never decides anything. *)
Theorem signals_never_both (p : Params) (frame : list Bar) (rows : list IndicatorRow) :
  calculate_indicators p frame = Some rows ->
  (forall ir, In ir rows ->
     is_bullish ir && is_bearish ir = false /\ is_uptrend ir && is_downtrend ir = false)
  /\ (forall r, In r (generate_signals p rows) -> short_signal r && long_signal r = false)
  /\ (forall r, In r (calculate_stops_targets p (generate_signals p rows)) ->
      short_signal r && long_signal r = false).
Proof.
  intros Hc. split; [|split].
  - intros ir Hin.
    destruct (In_calculate_indicators _ _ _ _ Hc Hin) as (b & s & e & a & -> & _).
    simpl. unfold Num.gtb. split.
    + destruct (PrimFloat.ltb (open b) (close b)) eqn:E; [|reflexivity].
      now rewrite (ltb_asym _ _ E).
    + destruct (PrimFloat.ltb e (close b)) eqn:E; [|reflexivity].
      now rewrite (ltb_asym _ _ E).
  - intros r Hin. destruct (short_signal r) eqn:E; [|reflexivity].
    now rewrite (signals_exclusive _ _ _ _ Hc Hin E).
  - intros r Hin. rewrite calculate_stops_targets_map in Hin.
    apply in_map_iff in Hin as (r0 & <- & Hr0).
    destruct (filter_row_columns p (levels_row p r0)) as (_ & _ & _ & _ & Hs & Hl).
    destruct (levels_row_keeps p r0) as (_ & Ks & Kl). rewrite Ks in Hs. rewrite Kl in Hl.
    destruct (short_signal (filter_row p (levels_row p r0))) eqn:Es; [|reflexivity].
    destruct (long_signal (filter_row p (levels_row p r0))) eqn:El; [|reflexivity].
    pose proof (signals_exclusive _ _ _ _ Hc Hr0 (Hs eq_refl)) as X.
    rewrite (Hl eq_refl) in X. discriminate.
Qed.

Lemma signals_never_both_witness :
  short_signal (Sample.row Sample.params 2%nat)
  && long_signal (Sample.row Sample.params 2%nat) = false.
Proof.
  refine (proj2 (proj2 (signals_never_both Sample.params Sample.frame
                          (Demo.indicators Sample.params) _)) _ _).
  - vm_compute. reflexivity.
  - vm_compute. tauto.
Defined.

(** ** Warm-up of the rolling windows *)

Lemma displacement_grade_nan (b : float) : displacement_grade b PrimFloat.nan = 0.
Proof.
  unfold displacement_grade, Num.gtb.
  rewrite !ltb_isna_l; [reflexivity | reflexivity | | | ]; reflexivity.
Qed.

Lemma displacement_grade_range (b s : float) : 0 <= displacement_grade b s <= 4.
Proof.
  unfold displacement_grade.
  repeat match goal with |- context [if ?c then _ else _] => destruct c end; lia.
Qed.

(** X3: the displacement strength is always one of 0..4, and on each of
    the first [displacement_length - 1] rows the rolling standard
    deviation is NaN and the strength 0; with a minimum strength of at least
    1 those rows are no valid displacement and get no signal, in any
    direction mode. *)
Theorem displacement_warm_up (p : Params) (frame : list Bar) (rows : list IndicatorRow)
        (i : nat) (r : IndicatorRow) :
  calculate_indicators p frame = Some rows ->
  nth_error rows i = Some r ->
  0 <= displacement_strength r <= 4
  /\ (Z.of_nat i + 1 < displacement_length p ->
      body_std r = PrimFloat.nan
      /\ displacement_strength r = 0
      /\ (1 <= min_displacement_strength p ->
          is_valid_displacement r = false
          /\ short_signal (signal_row p r) = false
          /\ long_signal (signal_row p r) = false)).
Proof.
  intros Hc Hr.
  destruct (nth_error_calculate_indicators _ _ _ _ _ Hc Hr)
    as (b & s & e & a & Hb & Hs & He & Ha & ->).
  split; [apply displacement_grade_range|]. intros Hi.
  assert (Es : s = PrimFloat.nan).
  { unfold Column.rolling_std, Column.rolling in Hs.
    apply (rolling_from_warm_up _ _ _ _ _ _ Hs). simpl. lia. }
  subst s. cbn [body_std displacement_strength indicator_row].
  rewrite displacement_grade_nan.
  split; [reflexivity|]. split; [reflexivity|]. intros Hm.
  assert (V : is_valid_displacement (indicator_row p b PrimFloat.nan e a) = false).
  { cbn [is_valid_displacement indicator_row]. rewrite displacement_grade_nan.
    destruct (Z.leb_spec (min_displacement_strength p) 0); [lia | reflexivity]. }
  split; [exact V|]. unfold signal_row. rewrite V.
  destruct (trade_direction p =? "auto")%string;
    [|destruct (trade_direction p =? "long_only")%string;
      [|destruct (trade_direction p =? "short_only")%string]];
    split; reflexivity.
Qed.

Lemma displacement_warm_up_witness :
  displacement_strength
    (nth 1 (Demo.indicators Sample.params)
         (indicator_row Sample.params (mkBar 0 0 0 0 0 0) 0 0 0)) = 0.
Proof.
  refine (proj1 (proj2 (proj2 (displacement_warm_up Sample.params Sample.frame
                   (Demo.indicators Sample.params) 1%nat _ _ _) _))).
  - vm_compute. reflexivity.
  - vm_compute. reflexivity.
  - vm_compute. reflexivity.
Defined.

(** Under the [atr] stop method a row whose ATR is NaN gets a NaN stop
    price, with or without a signal. *)
Lemma atr_nan_stop_nan (p : Params) (r0 : Row) :
  stop_method p = "atr" -> Num.isna (atr (ind r0)) = true ->
  Num.isna (stop_price (filter_row p (levels_row p r0))) = true.
Proof.
  intros Hm Ha.
  destruct (filter_row_columns p (levels_row p r0)) as (_ & -> & _).
  assert (D : forall r, ind r = ind r0 -> Num.isna (stop_distance p r) = true).
  { intros r E. unfold stop_distance. rewrite Hm, E. simpl. now apply mul_isna_l. }
  unfold levels_row, long_row, short_row, init_row.
  destruct (short_signal r0) eqn:Es, (long_signal r0) eqn:El; simpl;
    rewrite ?Es, ?El; simpl; rewrite ?El; simpl; rewrite ?Hm; simpl;
    try reflexivity;
    first [apply add_isna_r | apply sub_isna_r]; apply D; reflexivity.
Qed.

(** X4: the ATR of each of the first 13 rows is NaN; under the [atr] stop
    method such a row comes out of the level calculator with a NaN stop
    price, signal or not, and the simulator opens nothing from it. *)
Theorem atr_warm_up (p : Params) (frame : list Bar) (rows : list IndicatorRow)
        (i : nat) (r : Row) :
  calculate_indicators p frame = Some rows ->
  nth_error (calculate_stops_targets p (generate_signals p rows)) i = Some r ->
  (i < 13)%nat ->
  atr (ind r) = PrimFloat.nan
  /\ (stop_method p = "atr" ->
      Num.isna (stop_price r) = true
      /\ forall next_row, open_position p r next_row = None).
Proof.
  intros Hc Hr Hi.
  destruct (nth_error_calculate_stops_targets _ _ _ _ Hr) as (r0 & Hr0 & ->).
  unfold generate_signals in Hr0.
  destruct (nth_error_map_Some _ _ _ _ Hr0) as (ir & Hir & ->).
  destruct (nth_error_calculate_indicators _ _ _ _ _ Hc Hir)
    as (b & s & e & a & Hb & Hs & He & Ha & ->).
  assert (Ea : a = PrimFloat.nan).
  { unfold _calculate_atr, Column.rolling_mean, Column.rolling in Ha.
    apply (rolling_from_warm_up _ _ _ _ _ _ Ha). simpl. lia. }
  subst a.
  destruct (filter_row_columns p (levels_row p (signal_row p (indicator_row p b s e PrimFloat.nan))))
    as (Ei & _).
  destruct (levels_row_keeps p (signal_row p (indicator_row p b s e PrimFloat.nan)))
    as (Ki & _).
  split; [rewrite Ei, Ki; reflexivity|].
  intros Hm.
  assert (N : Num.isna (stop_price (filter_row p (levels_row p
                (signal_row p (indicator_row p b s e PrimFloat.nan))))) = true).
  { apply atr_nan_stop_nan; [exact Hm | reflexivity]. }
  split; [exact N|]. intros next_row. unfold open_position. rewrite N. simpl.
  now rewrite !andb_false_r.
Qed.

Lemma atr_warm_up_witness :
  atr (ind (Sample.row (Demo.with_mode "both" "atr") 2%nat)) = PrimFloat.nan.
Proof.
  refine (proj1 (atr_warm_up (Demo.with_mode "both" "atr") Sample.frame
                   (Demo.indicators (Demo.with_mode "both" "atr")) 2%nat _ _ _ _)).
  - vm_compute. reflexivity.
  - vm_compute. reflexivity.
  - lia.
Defined.

(** ** Frames that yield no trade *)

Lemma backtest_steps_flat (p : Params) (df : list Row) (k : nat) :
  (forall r next_row, In r df -> open_position p r next_row = None) ->
  backtest_steps p df k = initial_state.
Proof.
  intros H. induction k as [|k IH]; [reflexivity|].
  rewrite backtest_steps_S, IH.
  destruct (step_cases p df initial_state k)
    as [-> | (row & next_row & Hr & Hn & [(_ & ->) | (pos & _ & _ & Hp & _)])].
  - reflexivity.
  - rewrite (H row next_row (nth_error_In _ _ Hr)). reflexivity.
  - discriminate.
Qed.

(** The all-zero dictionary [calculate_metrics] returns for no trade. *)
Lemma calculate_metrics_nil :
  total_trades (calculate_metrics []) = 0
  /\ win_rate (calculate_metrics []) = 0%float
  /\ profit_factor (calculate_metrics []) = 0%float
  /\ total_pnl (calculate_metrics []) = 0%float
  /\ max_drawdown (calculate_metrics []) = 0%float
  /\ sharpe (calculate_metrics []) = 0%float
  /\ avg_r (calculate_metrics []) = 0%float
  /\ trades_df (calculate_metrics []) = None.
Proof. repeat split. Qed.

(** X5: a frame on which no row has both a signal flag and a defined
    stop price gives no trade: the simulator stays flat through every
    iteration and [backtest] returns the all-zero metrics, with 0 trades
    and profit factor 0. *)
Theorem no_signal_no_trade (p : Params) (df : list Row) :
  (forall r, In r df ->
     (short_signal r || long_signal r) && negb (Num.isna (stop_price r)) = false) ->
  (forall k, backtest_steps p df k = initial_state)
  /\ backtest p df = calculate_metrics []
  /\ total_trades (backtest p df) = 0
  /\ profit_factor (backtest p df) = 0%float.
Proof.
  intros H.
  assert (F : forall k, backtest_steps p df k = initial_state).
  { intros k. apply backtest_steps_flat. intros r next_row Hin.
    specialize (H r Hin). unfold open_position.
    destruct (short_signal r), (long_signal r), (Num.isna (stop_price r));
      simpl in *; congruence. }
  split; [exact F|].
  assert (B : backtest p df = calculate_metrics []).
  { unfold backtest, backtest_loop. now rewrite F. }
  rewrite B. repeat split.
Qed.

Lemma no_signal_no_trade_witness :
  total_trades (backtest Sample.params (firstn 2 (Sample.annotated Sample.params))) = 0.
Proof.
  refine (proj1 (proj2 (proj2 (no_signal_no_trade Sample.params
                   (firstn 2 (Sample.annotated Sample.params)) _)))).
  intros r Hin. vm_compute in Hin.
  destruct Hin as [<- | [<- | []]]; vm_compute; reflexivity.
Defined.



(** ** How many trades a frame can give *)

(** After [k] iterations the trades and the open position together number
    at most [k], and the trades alone at most [k - 1]. *)
Lemma backtest_steps_count (p : Params) (df : list Row) (k : nat) :
  let st := backtest_steps p df k in
  (List.length (trades st) + match position st with Some _ => 1 | None => 0 end <= k)%nat
  /\ (List.length (trades st) <= k - 1)%nat.
Proof.
  induction k as [|k [I1 I2]]; [cbn; lia|].
  cbn zeta in *. rewrite backtest_steps_S.
  destruct (step_cases p df (backtest_steps p df k) k)
    as [-> | (row & next_row & Hr & Hn & [(Hp & ->) | (pos & px & why & Hp & Hc & ->)])].
  - split; lia.
  - cbn [position trades]. rewrite Hp in I1.
    destruct (open_position p row next_row); split; lia.
  - cbn [position trades]. rewrite Hp in I1. rewrite length_app. cbn [List.length].
    destruct (open_position p row next_row); split; lia.
Qed.

(** X7: a trade needs an iteration to enter and a later one to exit, so
    a frame of [n] bars gives at most [n - 2] trades, and none when it has
    fewer than three bars; [total_trades] reports that number. *)
Theorem trade_count_bound (p : Params) (df : list Row) :
  (List.length (trades (backtest_loop p df)) <= List.length df - 2)%nat
  /\ total_trades (backtest p df) = Z.of_nat (List.length (trades (backtest_loop p df)))
  /\ ((List.length df < 3)%nat -> backtest p df = calculate_metrics []).
Proof.
  unfold backtest, backtest_loop.
  destruct (backtest_steps_count p df (List.length df - 1)) as [_ H].
  split; [lia|]. split.
  - destruct (trades (backtest_steps p df (List.length df - 1))); reflexivity.
  - intros L. destruct (trades (backtest_steps p df (List.length df - 1))) as [|t ts];
      [reflexivity|]. simpl in H. lia.
Qed.

Lemma trade_count_bound_witness :
  backtest Sample.params (firstn 2 (Sample.annotated Sample.params)) = calculate_metrics [].
Proof.
  refine (proj2 (proj2 (trade_count_bound Sample.params
                          (firstn 2 (Sample.annotated Sample.params)))) _).
  vm_compute. lia.
Defined.



(** ** The simulator does not look ahead *)

Lemma backtest_steps_firstn (p : Params) (df : list Row) (m k : nat) :
  (k < m)%nat -> backtest_steps p (firstn m df) k = backtest_steps p df k.
Proof.
  intros H. induction k as [|k IH]; [reflexivity|].
  rewrite !backtest_steps_S, IH by lia. unfold step.
  rewrite !nth_error_firstn.
  destruct (Nat.ltb_spec k m); [|lia]. destruct (Nat.ltb_spec (S k) m); [|lia].
  reflexivity.
Qed.

(** The trade list only grows, at its end. *)
Lemma trades_extend (p : Params) (df : list Row) (k d : nat) :
  exists later,
    trades (backtest_steps p df (k + d)) = (trades (backtest_steps p df k) ++ later)%list.
Proof.
  induction d as [|d [later IH]].
  - exists []. now rewrite Nat.add_0_r, app_nil_r.
  - replace (k + S d)%nat with (S (k + d)) by lia. rewrite backtest_steps_S.
    destruct (step_cases p df (backtest_steps p df (k + d)) (k + d))
      as [-> | (row & next_row & _ & _ & [(_ & ->) | (pos & px & why & _ & _ & ->)])];
      cbn [trades].
    + now exists later.
    + now exists later.
    + exists (later ++ [close_trade p pos next_row px why])%list.
      now rewrite IH, app_assoc.
Qed.

(** X9: the simulator is causal.  The trades it emits on the first [m]
    rows of a frame are an initial segment of the trades it emits on the
    whole frame: rows that come later add trades at the end and change none
    of the earlier ones; the same holds for the whole pipeline on a prefix
    of the input bars. *)
Theorem trades_of_a_prefix (p : Params) (df : list Row) (m : nat) :
  (exists later,
     trades (backtest_loop p df) = (trades (backtest_loop p (firstn m df)) ++ later)%list)
  /\ forall frame rows,
       calculate_indicators p frame = Some rows ->
       df = calculate_stops_targets p (generate_signals p rows) ->
       exists rows',
         calculate_indicators p (firstn m frame) = Some rows'
         /\ calculate_stops_targets p (generate_signals p rows') = firstn m df.
Proof.
  split.
  - destruct (Nat.le_gt_cases (List.length df) m) as [L|L].
    + rewrite firstn_all2 by exact L. exists []. now rewrite app_nil_r.
    + unfold backtest_loop. rewrite length_firstn, Nat.min_l by lia.
      destruct m as [|m].
      * simpl. exists (trades (backtest_steps p df (List.length df - 1))). reflexivity.
      * rewrite backtest_steps_firstn by lia.
        replace (List.length df - 1)%nat
          with ((S m - 1) + (List.length df - 1 - (S m - 1)))%nat by lia.
        apply trades_extend.
  - intros frame rows Hc ->. exists (firstn m rows). split.
    + rewrite firstn_calculate_indicators, Hc. reflexivity.
    + rewrite !calculate_stops_targets_map. unfold generate_signals.
      now rewrite !firstn_map.
Qed.

Lemma trades_of_a_prefix_witness :
  exists rows',
    calculate_indicators Sample.params (firstn 5 Sample.frame) = Some rows'
    /\ calculate_stops_targets Sample.params (generate_signals Sample.params rows')
       = firstn 5 (Sample.annotated Sample.params).
Proof.
  refine (proj2 (trades_of_a_prefix Sample.params (Sample.annotated Sample.params) 5%nat)
            Sample.frame (Demo.indicators Sample.params) _ _).
  - vm_compute. reflexivity.
  - vm_compute. reflexivity.
Defined.

(** ** How trades end *)

(** X10: every emitted trade was entered on a row of the frame and exited
    on a later row, the last row at the latest, so that a position opened on
    the last row is dropped without a trade.  It exits at its own stop when
    the reason is [stop] and at its own target when the reason is [target],
    never at another price, and the exit row did reach that level: its low
    for a long stop or a short target, its high for a short stop or a long
    target. *)
Theorem trade_exit_levels (p : Params) (df : list Row) (t : Trade.t) :
  In t (trades (backtest_loop p df)) ->
  exists i j entry_row exit_row,
    (i < j)%nat /\ (S j < List.length df)%nat
    /\ nth_error df (S i) = Some entry_row /\ nth_error df (S j) = Some exit_row
    /\ Trade.entry_time t = time (bar (ind entry_row))
    /\ Trade.exit_time t = time (bar (ind exit_row))
    /\ match Trade.direction t, Trade.exit_reason t with
       | long, stop_exit =>
           Trade.exit t = Trade.stop t
           /\ PrimFloat.leb (low (bar (ind exit_row))) (Trade.stop t) = true
       | long, target_exit =>
           Trade.exit t = Trade.target t
           /\ PrimFloat.leb (low (bar (ind exit_row))) (Trade.stop t) = false
           /\ Num.geb (high (bar (ind exit_row))) (Trade.target t) = true
       | short, stop_exit =>
           Trade.exit t = Trade.stop t
           /\ Num.geb (high (bar (ind exit_row))) (Trade.stop t) = true
       | short, target_exit =>
           Trade.exit t = Trade.target t
           /\ Num.geb (high (bar (ind exit_row))) (Trade.stop t) = false
           /\ PrimFloat.leb (low (bar (ind exit_row))) (Trade.target t) = true
       end.
Proof.
  intros H. unfold backtest_loop in H.
  destruct (backtest_steps_origin p df (List.length df - 1)) as [_ Ht].
  destruct (Ht t H) as (i & j & Hj & pos & exit_row & px & why & Hij & Ho & Hx & Hc & ->).
  destruct Ho as (row & entry_row & Hr & He & Ho).
  destruct (open_position_inv _ _ _ _ Ho) as (_ & Het & _).
  exists i, j, entry_row, exit_row.
  split; [exact Hij|]. split; [lia|]. split; [exact He|]. split; [exact Hx|].
  split; [exact Het|]. split; [reflexivity|].
  cbn [Trade.direction Trade.exit_reason Trade.exit Trade.stop Trade.target close_trade].
  unfold check_exit in Hc.
  destruct (Position.direction pos).
  - destruct (PrimFloat.leb (low (bar (ind exit_row))) (Position.stop pos)) eqn:E1.
    + injection Hc as <- <-. auto.
    + destruct (Num.geb (high (bar (ind exit_row))) (Position.target pos)) eqn:E2;
        [|discriminate].
      injection Hc as <- <-. auto.
  - destruct (Num.geb (high (bar (ind exit_row))) (Position.stop pos)) eqn:E1.
    + injection Hc as <- <-. auto.
    + destruct (PrimFloat.leb (low (bar (ind exit_row))) (Position.target pos)) eqn:E2;
        [|discriminate].
      injection Hc as <- <-. auto.
Qed.

Lemma trade_exit_levels_witness :
  exists i j entry_row exit_row,
    (i < j)%nat /\ (S j < List.length (Sample.annotated Sample.params))%nat
    /\ nth_error (Sample.annotated Sample.params) (S i) = Some entry_row
    /\ nth_error (Sample.annotated Sample.params) (S j) = Some exit_row
    /\ 900 = time (bar (ind entry_row))
    /\ 1200 = time (bar (ind exit_row))
    /\ 102.5%float = 102.5%float
    /\ Num.geb (high (bar (ind exit_row))) 105.5 = false
    /\ PrimFloat.leb (low (bar (ind exit_row))) 102.5 = true.
Proof.
  refine (trade_exit_levels Sample.params (Sample.annotated Sample.params)
            (nth 0 (trades (backtest_loop Sample.params (Sample.annotated Sample.params)))
                 (close_trade Sample.params Sample.spanned_long
                    (Sample.row Sample.params 0) 0 stop_exit)) _).
  vm_compute. tauto.
Defined.

(** ** Direction modes *)

(** A signal flag found after the level calculator was set by the signal
    generator. *)
Lemma annotated_signal_origin (p : Params) (rows : list IndicatorRow) (r : Row) :
  In r (calculate_stops_targets p (generate_signals p rows)) ->
  exists ir, In ir rows
    /\ (short_signal r = true -> short_signal (signal_row p ir) = true)
    /\ (long_signal r = true -> long_signal (signal_row p ir) = true).
Proof.
  intros Hin. rewrite calculate_stops_targets_map in Hin.
  apply in_map_iff in Hin as (r0 & <- & Hr0).
  unfold generate_signals in Hr0. apply in_map_iff in Hr0 as (ir & <- & Hir).
  exists ir. split; [exact Hir|].
  destruct (filter_row_columns p (levels_row p (signal_row p ir)))
    as (_ & _ & _ & _ & Hs & Hl).
  destruct (levels_row_keeps p (signal_row p ir)) as (_ & Ks & Kl).
  rewrite Ks in Hs. rewrite Kl in Hl. auto.
Qed.

(** X11: under [long_only] no row carries a short signal and every trade
    of the backtest is long; under [short_only] no row carries a long
    signal and every trade is short.  Neither mode looks at the trend: a
    signal under [auto] is also a signal under the one-sided mode of its
    direction and under [both]. *)
Theorem one_sided_modes (p : Params) (rows : list IndicatorRow) :
  let df := calculate_stops_targets p (generate_signals p rows) in
  (trade_direction p = "long_only" ->
     (forall r, In r df -> short_signal r = false)
     /\ forall t, In t (trades (backtest_loop p df)) -> Trade.direction t = long)
  /\ (trade_direction p = "short_only" ->
     (forall r, In r df -> long_signal r = false)
     /\ forall t, In t (trades (backtest_loop p df)) -> Trade.direction t = short)
  /\ (forall ir q,
       is_valid_displacement ir && is_bullish ir && has_upper_wick ir && is_downtrend ir = true ->
       trade_direction q = "short_only" \/ trade_direction q = "both"
       \/ trade_direction q = "auto" ->
       short_signal (signal_row q ir) = true).
Proof.
  intros df0.
  assert (T : forall t, In t (trades (backtest_loop p df0)) ->
            exists row, In row df0
              /\ match Trade.direction t with
                 | short => short_signal row = true
                 | long => long_signal row = true
                 end).
  { intros t Ht. unfold backtest_loop in Ht.
    destruct (backtest_steps_origin p df0 (List.length df0 - 1)) as [_ H].
    destruct (H t Ht) as (i & j & _ & pos & nx & px & why & _ & Ho & _ & _ & ->).
    destruct Ho as (row & next_row & Hr & _ & Ho). exists row.
    split; [exact (nth_error_In _ _ Hr)|].
    destruct (open_position_inv _ _ _ _ Ho) as (_ & _ & _ & _ & [(Hd & Hs & _) | (Hd & Hs & _)]);
      cbn [Trade.direction close_trade]; rewrite Hd; exact Hs. }
  split; [|split].
  - intros Hm.
    assert (S0 : forall r, In r df0 -> short_signal r = false).
    { intros r Hin. destruct (annotated_signal_origin p rows r Hin) as (ir & _ & Hs & _).
      destruct (short_signal r); [|reflexivity].
      specialize (Hs eq_refl). unfold signal_row in Hs. rewrite Hm in Hs. discriminate. }
    split; [exact S0|]. intros t Ht. destruct (T t Ht) as (row & Hin & Hd).
    destruct (Trade.direction t); [reflexivity|].
    rewrite (S0 row Hin) in Hd. discriminate.
  - intros Hm.
    assert (S0 : forall r, In r df0 -> long_signal r = false).
    { intros r Hin. destruct (annotated_signal_origin p rows r Hin) as (ir & _ & _ & Hl).
      destruct (long_signal r); [|reflexivity].
      specialize (Hl eq_refl). unfold signal_row in Hl. rewrite Hm in Hl. discriminate. }
    split; [exact S0|]. intros t Ht. destruct (T t Ht) as (row & Hin & Hd).
    destruct (Trade.direction t); [|reflexivity].
    rewrite (S0 row Hin) in Hd. discriminate.
  - intros ir q H Hq. apply andb_true_iff in H as [H Hd].
    unfold signal_row. destruct Hq as [-> | [-> | ->]]; cbn [String.eqb fst];
      simpl; rewrite ?H, ?Hd; reflexivity.
Qed.

Lemma one_sided_modes_witness :
  let p := Demo.with_mode "long_only" "fixed_ticks" in
  Trade.direction
    (nth 0 (trades (backtest_loop p (Sample.annotated p)))
         (close_trade p Sample.spanned_long (Sample.row p 0) 0 stop_exit)) = long.
Proof.
  refine (proj2 (proj1 (one_sided_modes (Demo.with_mode "long_only" "fixed_ticks")
            (Demo.indicators (Demo.with_mode "long_only" "fixed_ticks"))) _) _ _).
  - reflexivity.
  - vm_compute. tauto.
Defined.

(** ** What the level calculator leaves on each row *)

(** X12: [calculate_stops_targets] works row by row.  Row [i] of its
    result keeps the indicator columns of row [i] of its input; a row without
    signal gets NaN for stop, target and risk, whatever these columns held
    before; a signal flag is never set, only cleared, and it is kept whenever
    the filter is off or the row's risk does not exceed the cap (a NaN risk
    never does). *)
Theorem levels_row_by_row (p : Params) (rows : list Row) (i : nat) (r0 : Row) :
  nth_error rows i = Some r0 ->
  exists r,
    nth_error (calculate_stops_targets p rows) i = Some r
    /\ ind r = ind r0
    /\ (short_signal r0 = false -> long_signal r0 = false ->
        short_signal r = false /\ long_signal r = false
        /\ Num.isna (stop_price r) = true /\ Num.isna (target_price r) = true
        /\ Num.isna (risk r) = true)
    /\ (short_signal r = true -> short_signal r0 = true)
    /\ (long_signal r = true -> long_signal r0 = true)
    /\ (use_max_risk_filter p = false \/ Num.gtb (risk r) (max_risk p) = false ->
        short_signal r = short_signal r0 /\ long_signal r = long_signal r0).
Proof.
  intros H. exists (filter_row p (levels_row p r0)).
  split. { rewrite calculate_stops_targets_map, nth_error_map, H. reflexivity. }
  destruct (filter_row_columns p (levels_row p r0)) as (Ei & Es & Et & Er & Hs & Hl).
  destruct (levels_row_keeps p r0) as (Ki & Ks & Kl).
  rewrite Ks in Hs. rewrite Kl in Hl.
  split; [now rewrite Ei, Ki|]. split; [|split; [exact Hs|split; [exact Hl|]]].
  - intros S0 L0. rewrite Es, Et, Er.
    split. { destruct (short_signal (filter_row p (levels_row p r0))); [|reflexivity].
             rewrite (Hs eq_refl) in S0. discriminate. }
    split. { destruct (long_signal (filter_row p (levels_row p r0))); [|reflexivity].
             rewrite (Hl eq_refl) in L0. discriminate. }
    unfold levels_row, long_row, short_row, init_row. simpl. rewrite S0. simpl.
    rewrite L0. simpl. repeat split.
  - intros Hf. rewrite Er in Hf. rewrite <- Ks, <- Kl. unfold filter_row.
    destruct (use_max_risk_filter p); [|split; reflexivity].
    destruct Hf as [Hf | Hf]; [discriminate|]. rewrite Hf. simpl. rewrite Hf. split; reflexivity.
Qed.

Lemma levels_row_by_row_witness :
  exists r,
    nth_error (Sample.annotated Sample.params) 0 = Some r
    /\ Num.isna (stop_price r) = true.
Proof.
  destruct (levels_row_by_row Sample.params
              (generate_signals Sample.params (Demo.indicators Sample.params)) 0%nat
              (signal_row Sample.params
                 (nth 0 (Demo.indicators Sample.params)
                      (indicator_row Sample.params (mkBar 0 0 0 0 0 0) 0 0 0))))
    as (r & Hr & _ & Hn & _).
  - vm_compute. reflexivity.
  - exists r. split; [exact Hr|]. apply Hn; vm_compute; reflexivity.
Defined.

(** ** Edge cases of the metrics *)

Lemma filter_none {A : Type} (f : A -> bool) (l : list A) :
  (forall x, In x l -> f x = false) -> filter f l = [].
Proof.
  induction l as [|a l IH]; intros H; simpl; [reflexivity|].
  rewrite (H a (or_introl eq_refl)). apply IH. intros x Hx. apply H. now right.
Qed.

(** X13: when there are trades and every one of them is a winner
    ([pnl_dollars > 0]), nothing counts as a loser: the profit factor is
    the sentinel [+inf] (not a division by zero) and the average loser is
    0. *)
Theorem profit_factor_without_losers (ts : list Trade.t) :
  ts <> [] ->
  (forall t, In t ts -> Num.gtb (Trade.pnl_dollars t) 0 = true) ->
  profit_factor (calculate_metrics ts) = PrimFloat.infinity
  /\ avg_loser (calculate_metrics ts) = 0%float
  /\ total_trades (calculate_metrics ts) = Z.of_nat (List.length ts)
  /\ trades_df (calculate_metrics ts) = Some ts.
Proof.
  intros Hne Hw. destruct ts as [|t ts]; [congruence|].
  assert (L : filter (fun x => PrimFloat.leb x 0) (map Trade.pnl_dollars (t :: ts)) = []).
  { apply filter_none. intros x Hx. apply in_map_iff in Hx as (u & <- & Hu).
    apply ltb_not_leb. exact (Hw u Hu). }
  unfold calculate_metrics. cbn [profit_factor avg_loser total_trades trades_df].
  rewrite L. cbn [List.length Nat.ltb Nat.leb]. repeat split.
Qed.

Lemma profit_factor_without_losers_witness :
  profit_factor
    (calculate_metrics
       (firstn 1 (trades (backtest_loop Sample.params (Sample.annotated Sample.params)))))
  = PrimFloat.infinity.
Proof.
  refine (proj1 (profit_factor_without_losers
            (firstn 1 (trades (backtest_loop Sample.params (Sample.annotated Sample.params))))
            _ _)).
  - vm_compute. discriminate.
  - intros t Ht. vm_compute in Ht. destruct Ht as [<- | []]. vm_compute. reflexivity.
Defined.

(** X14: with fewer than two trades the standard deviation of the
    profits is undefined (NaN) and the [sharpe] entry is 0, not NaN and not
    an error. *)
Theorem sharpe_needs_two_trades (ts : list Trade.t) :
  (List.length ts < 2)%nat -> sharpe (calculate_metrics ts) = 0%float.
Proof.
  intros H. destruct ts as [|t [|u ts]]; [reflexivity| |simpl in H; lia].
  unfold calculate_metrics. cbn [sharpe map].
  assert (S : Num.std [Trade.pnl_dollars t] = PrimFloat.nan).
  { unfold Num.std. simpl. destruct (Num.isna (Trade.pnl_dollars t)); reflexivity. }
  rewrite S. reflexivity.
Qed.

Lemma sharpe_needs_two_trades_witness :
  sharpe
    (calculate_metrics
       (firstn 1 (trades (backtest_loop Sample.params (Sample.annotated Sample.params)))))
  = 0%float.
Proof.
  refine (sharpe_needs_two_trades
            (firstn 1 (trades (backtest_loop Sample.params (Sample.annotated Sample.params))))
            _).
  vm_compute. lia.
Defined.
